(** * gt.vscode.wrapper: the local bundle cache and its staleness check

    A shallow embedding of [src/py/gt/vscode/wrapper/_wrapper.py]
    ([_scan_mtimes], [_is_stale], [write_local_bundles], [resolve_code_exe],
    [launch_vscode]) and of [main] in [__main__.py], with the properties the
    specification states about them.

    Conventions of the model.
    - A Python [str] is a [string] whose characters are code points below
      256; [isspace] is Python's [str.isspace] on that range.
    - A [pathlib.Path] is represented by its [str()]; building one from a
      string is the library function [Path], a parameter of the development.
    - A Python [dict] with string keys is a [gmap string _]: unique keys,
      equality by keys and values.
    - [st_mtime] and JSON numbers are integers; only their equality is used.
    - The directory tree is seen through the three calls the code makes on
      it ([is_dir], [stat], [iterdir]); each may answer independently, which
      covers a path that vanishes between two calls.
    - [is_dir] and [exists] are pathlib's: they answer [False] for a path
      that is not there ([ENOENT], [ENOTDIR], [EBADF], [ELOOP]) and raise
      any other [OSError] of the underlying [stat], for instance
      [PermissionError] below a directory that may not be searched.
    - The state is the file system: the directory tree and the two cache
      files.  [mkdir] and [write_text] change the tree as the environment
      says (creating a file moves the modification time of the directory
      that holds it).  Every call made on the cache files, the discovery
      scan and the log records are appended to a trace. *)

From stdpp Require Import gmap strings list fin_maps.
From Stdlib Require Import ZArith Ascii String.

#[local] Set Warnings "-register-all".
#[local] Open Scope string_scope.
#[local] Open Scope Z_scope.

(** ** Strings: [str.split] and [str.strip] *)

Module PyStr.

(** [str.isspace] for one character. *)
Definition isspace (c : ascii) : bool :=
  let n := N_of_ascii c in
  (((9 <=? n) && (n <=? 13)) || ((28 <=? n) && (n <=? 32))
   || (n =? 133) || (n =? 160))%N.

Fixpoint lstrip (s : string) : string :=
  match s with
  | EmptyString => EmptyString
  | String c s' => if isspace c then lstrip s' else s
  end.

Fixpoint rstrip (s : string) : string :=
  match s with
  | EmptyString => EmptyString
  | String c s' =>
      match rstrip s' with
      | EmptyString => if isspace c then EmptyString else String c EmptyString
      | r => String c r
      end
  end.

(** [s.strip()] *)
Definition strip (s : string) : string := rstrip (lstrip s).

(** [s.split(sep)] for a one-character separator. *)
Fixpoint split (sep : ascii) (s : string) : list string :=
  match s with
  | EmptyString => [EmptyString]
  | String c s' =>
      if Ascii.eqb c sep then EmptyString :: split sep s'
      else match split sep s' with
           | [] => [String c EmptyString]
           | h :: t => String c h :: t
           end
  end.

(** Truth value of a string: non-empty. *)
Definition truthy (s : string) : bool :=
  match s with EmptyString => false | _ => true end.

End PyStr.

(** ** Exceptions *)

Inductive OSError :=
  | PermissionError
  | FileNotFoundError
  | NotADirectoryError
  | OtherOSError (errno : Z).

Inductive exn :=
  | OSErr (e : OSError)
  | UnicodeDecodeError
  | JSONDecodeError
  | AttributeError.

Inductive result (A : Type) :=
  | Ok (a : A)
  | Raise (e : exn).
Arguments Ok {A} a.
Arguments Raise {A} e.

(** The value of a call that returned. *)
Definition returned {A} (r : result A) : option A :=
  match r with
  | Ok a => Some a
  | Raise _ => None
  end.

(** ** The directory tree, as the calls of [_scan_mtimes] see it *)

Record FileSystem := {
  (** [p.is_dir()]: [False] for a path that is not there, an exception for
      one that cannot be examined. *)
  is_dir : string → OSError + bool;
  (** [p.stat().st_mtime] *)
  stat_mtime : string → OSError + Z;
  (** the entries of a directory, as paths, in the order the OS lists them *)
  children_of : string → list string;
  (** the error listing a directory meets, if any (it may not be read, or
      it is gone) *)
  listing_error : string → option OSError;
}.

(** [p.iterdir()] *)
Definition iterdir (fs : FileSystem) (p : string) : OSError + list string :=
  match listing_error fs p with
  | Some e => inl e
  | None => inr (children_of fs p)
  end.

Abbreviation Mtimes := (gmap string Z).

Section Fingerprint.

(** [str(Path(s))] *)
Variable Path : string → string.
Variable fs : FileSystem.

(** The loop [for child in root.iterdir()] of the [try] block.  The dict is
    updated in place, so what was stored before an exception stays. *)
Fixpoint scan_children (children : list string) (mtimes : Mtimes)
  : Mtimes * result unit :=
  match children with
  | [] => (mtimes, Ok tt)
  | child :: rest =>
      match is_dir fs child with
      | inl e => (mtimes, Raise (OSErr e))
      | inr true =>
          match stat_mtime fs child with
          | inl e => (mtimes, Raise (OSErr e))
          | inr t => scan_children rest (<[child := t]> mtimes)
          end
      | inr false => scan_children rest mtimes
      end
  end.

(** The body of the [try] block for one root. *)
Definition scan_root (root : string) (mtimes : Mtimes) : Mtimes * result unit :=
  match stat_mtime fs root with
  | inl e => (mtimes, Raise (OSErr e))
  | inr t =>
      let mtimes := <[root := t]> mtimes in
      match iterdir fs root with
      | inl e => (mtimes, Raise (OSErr e))
      | inr children => scan_children children mtimes
      end
  end.

(** The [for root_str in roots] loop.  The test [root.is_dir()] stands
    before the [try]: an exception it raises ends the scan.  The second
    component collects the arguments of the [log.debug] calls of the
    [except OSError] clause; an exception of another class is not caught. *)
Fixpoint scan_loop (roots : list string) (mtimes : Mtimes)
    (logged : list (string * OSError))
  : result Mtimes * list (string * OSError) :=
  match roots with
  | [] => (Ok mtimes, logged)
  | root_str :: rest =>
      let root := Path root_str in
      match is_dir fs root with
      | inl e => (Raise (OSErr e), logged)
      | inr false => scan_loop rest mtimes logged
      | inr true =>
          match scan_root root mtimes with
          | (mtimes', Ok _) => scan_loop rest mtimes' logged
          | (mtimes', Raise (OSErr exc)) =>
              scan_loop rest mtimes' (logged ++ [(root_str, exc)])
          | (_, Raise e) => (Raise e, logged)
          end
      end
  end.

Definition _scan_mtimes (roots : list string)
  : result Mtimes * list (string * OSError) :=
  scan_loop roots ∅ [].

(** [p.is_dir()] answered [True]. *)
Definition is_directory (p : string) : bool :=
  match is_dir fs p with
  | inr true => true
  | _ => false
  end.

(** [p.is_dir()] answered [False]. *)
Definition not_directory (p : string) : bool :=
  match is_dir fs p with
  | inr false => true
  | _ => false
  end.

(** The assignments [mtimes[k] = t] one run of the children loop makes. *)
Fixpoint child_entries (children : list string) : list (string * Z) :=
  match children with
  | [] => []
  | child :: rest =>
      match is_dir fs child with
      | inl _ => []
      | inr true =>
          match stat_mtime fs child with
          | inl _ => []
          | inr t => (child, t) :: child_entries rest
          end
      | inr false => child_entries rest
      end
  end.

(** The exception the children loop ends with, if any. *)
Fixpoint children_error (children : list string) : option OSError :=
  match children with
  | [] => None
  | child :: rest =>
      match is_dir fs child with
      | inl e => Some e
      | inr true =>
          match stat_mtime fs child with
          | inl e => Some e
          | inr _ => children_error rest
          end
      | inr false => children_error rest
      end
  end.

(** The assignments the [try] block of one root makes. *)
Definition root_entries (root : string) : list (string * Z) :=
  match stat_mtime fs root with
  | inl _ => []
  | inr t =>
      (root, t) :: match iterdir fs root with
                   | inl _ => []
                   | inr children => child_entries children
                   end
  end.

(** The exception the [try] block of one root ends with, if any. *)
Definition root_error (root : string) : option OSError :=
  match stat_mtime fs root with
  | inl e => Some e
  | inr _ =>
      match iterdir fs root with
      | inl e => Some e
      | inr children => children_error children
      end
  end.

(** The exception of the first root that [is_dir] cannot examine, if any. *)
Fixpoint examine_error (roots : list string) : option OSError :=
  match roots with
  | [] => None
  | r :: rest =>
      match is_dir fs (Path r) with
      | inl e => Some e
      | inr _ => examine_error rest
      end
  end.

(** All assignments of a scan in which every root is examined, in order. *)
Definition entries (roots : list string) : list (string * Z) :=
  mjoin (List.map (λ r, if is_directory (Path r) then root_entries (Path r) else [])
           roots).

(** The roots whose [try] block raised, with the exception, up to the first
    root that cannot be examined. *)
Fixpoint failures (roots : list string) : list (string * OSError) :=
  match roots with
  | [] => []
  | r :: rest =>
      match is_dir fs (Path r) with
      | inl _ => []
      | inr true =>
          match root_error (Path r) with
          | Some e => (r, e) :: failures rest
          | None => failures rest
          end
      | inr false => failures rest
      end
  end.

(** A dict after a sequence of assignments. *)
Definition store (mtimes : Mtimes) (es : list (string * Z)) : Mtimes :=
  foldl (λ m kt, <[kt.1 := kt.2]> m) mtimes es.

(** [k] is a root that is a directory, or a directory among the entries of
    such a root, and [t] is its modification time. *)
Definition tracked (roots : list string) (k : string) (t : Z) : Prop :=
  ∃ r, r ∈ roots ∧ is_dir fs (Path r) = inr true ∧
    ((k = Path r ∧ stat_mtime fs k = inr t)
     ∨ (k ∈ children_of fs (Path r)
        ∧ is_dir fs k = inr true ∧ stat_mtime fs k = inr t)).

(** The fingerprint maps exactly the tracked directories to their times. *)
Definition fingerprint_exact (roots : list string) : Prop :=
  ∃ m, (_scan_mtimes roots).1 = Ok m
       ∧ ∀ k t, m !! k = Some t ↔ tracked roots k t.

End Fingerprint.

(** ** JSON values, as [json.loads] returns them *)

Inductive json : Type :=
  | JNull
  | JBool (b : bool)
  | JNum (n : Z)
  | JStr (s : string)
  | JArr (l : list json)
  | JObj (d : gmap string json).

(** [d.get(key, default)] on a dict *)
Definition stored (d : gmap string json) (key : string) (default : json) : json :=
  match d !! key with Some v => v | None => default end.

(** [meta.get(key, default)]: only a dict has the method. *)
Definition dict_get (meta : json) (key : string) (default : json) : result json :=
  match meta with
  | JObj d => Ok (stored d key default)
  | _ => Raise AttributeError
  end.

(** [v != s] for a loaded value [v] and a [str] [s]. *)
Definition ne_str (v : json) (s : string) : bool :=
  match v with
  | JStr s' => negb (String.eqb s' s)
  | _ => true
  end.

(** [t == v] for a float [t] and a loaded value [v]; [bool] is an [int]. *)
Definition num_eq (t : Z) (v : json) : bool :=
  match v with
  | JNum n => t =? n
  | JBool b => t =? Z.b2z b
  | _ => false
  end.

(** [mtimes == v]: dict equality is same length and, for every key of the
    left dict, the key present on the right with an equal value. *)
Definition mtimes_eq (mtimes : Mtimes) (v : json) : bool :=
  match v with
  | JObj d =>
      (size mtimes =? size d)%nat
      && forallb (λ kt : string * Z,
                    match d !! kt.1 with
                    | Some x => num_eq kt.2 x
                    | None => false
                    end)
                 (map_to_list mtimes)
  | _ => false
  end.

(** What [json.dumps] is given for a fingerprint. *)
Definition mtimes_json (mtimes : Mtimes) : json := JObj (JNum <$> mtimes).

(** The dict [{'bundles': bundle_paths}] *)
Definition bundles_doc (bundle_paths : list string) : json :=
  JObj {[ "bundles" := JArr (List.map JStr bundle_paths) ]}.

(** The dict [{'bndl_roots': roots_str, 'depth2_mtimes': mtimes}] *)
Definition meta_doc (roots_str : string) (mtimes : Mtimes) : json :=
  JObj (<[ "bndl_roots" := JStr roots_str ]>
          {[ "depth2_mtimes" := mtimes_json mtimes ]}).

(** ** The file system and the effects on it *)

Inductive CachePath := LOCAL_BUNDLES_PATH | _META_PATH.

(** A file that exists: either reading and parsing it raises, or it parses. *)
Inductive content :=
  | Unreadable (e : exn)
  | Json (v : json).

Inductive log_record :=
  | CouldNotStat (root_str : string) (exc : OSError)
  | RootsChanged
  | LayoutChanged
  | UpToDate
  | Scanning
  | Wrote (n : nat).

Inductive event :=
  | EvExists (p : CachePath)
  | EvReadText (p : CachePath)
  | EvLog (r : log_record)
  | EvDiscover
  | EvMkdir
  | EvWriteText (p : CachePath) (v : json).

Record World := {
  (** the directory tree *)
  tree : FileSystem;
  (** the two cache files: [None] when [exists()] does not answer [True] *)
  local_bundles : option content;
  meta_file : option content;
  (** the exception [exists()] raises on a cache path it cannot examine *)
  exists_error : CachePath → option OSError;
  trace : list event;
}.

Definition file (p : CachePath) (w : World) : option content :=
  match p with
  | LOCAL_BUNDLES_PATH => local_bundles w
  | _META_PATH => meta_file w
  end.

Definition set_file (p : CachePath) (c : content) (w : World) : World :=
  match p with
  | LOCAL_BUNDLES_PATH =>
      {| tree := tree w; local_bundles := Some c; meta_file := meta_file w;
         exists_error := exists_error w; trace := trace w |}
  | _META_PATH =>
      {| tree := tree w; local_bundles := local_bundles w; meta_file := Some c;
         exists_error := exists_error w; trace := trace w |}
  end.

Definition record (evs : list event) (w : World) : World :=
  {| tree := tree w; local_bundles := local_bundles w; meta_file := meta_file w;
     exists_error := exists_error w; trace := trace w ++ evs |}.

(** The same cache files under another directory tree. *)
Definition at_tree (t : FileSystem) (w : World) : World :=
  {| tree := t; local_bundles := local_bundles w; meta_file := meta_file w;
     exists_error := exists_error w; trace := trace w |}.

(** The file is there. *)
Definition present (f : option content) : bool :=
  match f with Some _ => true | None => false end.

(** A bundle, as far as the wrapper looks at it: [str(b.root)]. *)
Record Bundle := { root : string }.

Inductive io_op := OpMkdir | OpWrite (p : CachePath).

Record Env := {
  os_name : string;
  environ : gmap string string;
  (** the value [envoy.discover_bundles_auto()] returns *)
  discover_bundles_auto : list Bundle;
  (** the error [mkdir] or [write_text] meets, if any *)
  io_fault : io_op → option OSError;
  (** whether a [write_text] that fails had opened the file, which empties
      it, before failing *)
  io_torn : CachePath → bool;
  (** the directory tree after [mkdir] on the cache directory *)
  mkdir_tree : FileSystem → FileSystem;
  (** the directory tree after [write_text] has opened a cache file that
      was there ([true]) or was not ([false]) *)
  write_tree : CachePath → bool → FileSystem → FileSystem;
}.

(** State and exceptions: a raised exception keeps the state reached. *)
Definition M (A : Type) : Type := World → result A * World.

Definition ret {A} (a : A) : M A := λ w, (Ok a, w).

#[global] Instance M_ret : MRet M := @ret.
#[global] Instance M_fmap : FMap M := λ A B f m w,
  match m w with
  | (Ok a, w') => (Ok (f a), w')
  | (Raise e, w') => (Raise e, w')
  end.
#[global] Instance M_bind : MBind M := λ A B f m w,
  match m w with
  | (Ok a, w') => f a w'
  | (Raise e, w') => (Raise e, w')
  end.

(** [try: m  except Exception: h] *)
Definition try_except {A} (m : M A) (h : M A) : M A := λ w,
  match m w with
  | (Ok a, w') => (Ok a, w')
  | (Raise _, w') => h w'
  end.

Definition emit (e : event) : M unit := λ w, (Ok tt, record [e] w).

Definition log (r : log_record) : M unit := emit (EvLog r).

(** [p.exists()] *)
Definition exists_ (p : CachePath) : M bool := λ w,
  (match file p w with
   | Some _ => Ok true
   | None =>
       match exists_error w p with
       | Some e => Raise (OSErr e)
       | None => Ok false
       end
   end, record [EvExists p] w).

(** [json.loads(p.read_text(encoding='utf-8'))] *)
Definition load (p : CachePath) : M json := λ w,
  (match file p w with
   | Some (Json v) => Ok v
   | Some (Unreadable e) => Raise e
   | None => Raise (OSErr FileNotFoundError)
   end, record [EvReadText p] w).

Definition lift {A} (r : result A) : M A := λ w, (r, w).

(** ** [_is_stale] and [write_local_bundles] *)

Section Wrapper.

Variable Path : string → string.
Variable env : Env.

(** [';' if os.name == 'nt' else ':'] *)
Definition sep : ascii :=
  if String.eqb (os_name env) "nt" then ";"%char else ":"%char.

(** [[r.strip() for r in roots_str.split(sep) if r.strip()]] *)
Definition split_roots (roots_str : string) : list string :=
  List.map PyStr.strip
    (List.filter (λ r, PyStr.truthy (PyStr.strip r)) (PyStr.split sep roots_str)).

(** The call [_scan_mtimes(roots)], its debug records going to the log. *)
Definition scan_mtimes (roots : list string) : M Mtimes := λ w,
  let '(r, logged) := _scan_mtimes Path (tree w) roots in
  (r, record (List.map (λ l, EvLog (CouldNotStat l.1 l.2)) logged) w).

Definition _is_stale (roots_str : string) : M bool :=
  have_bundles ← exists_ LOCAL_BUNDLES_PATH;
  if negb have_bundles then ret true else
  have_meta ← exists_ _META_PATH;
  if negb have_meta then ret true else
  loaded ← try_except (Some <$> load _META_PATH) (ret None);
  match loaded with
  | None => ret true
  | Some meta =>
      stored_roots ← lift (dict_get meta "bndl_roots" JNull);
      if ne_str stored_roots roots_str then
        log RootsChanged;; ret true
      else
        let roots := split_roots roots_str in
        mtimes ← scan_mtimes roots;
        stored ← lift (dict_get meta "depth2_mtimes" (JObj ∅));
        if negb (mtimes_eq mtimes stored) then
          log LayoutChanged;; ret true
        else ret false
  end.

(** [mkdir(parents=True, exist_ok=True)] on the cache directory *)
Definition mkdir : M unit := λ w,
  (match io_fault env OpMkdir with
   | Some e => Raise (OSErr e)
   | None => Ok tt
   end, record [EvMkdir] (at_tree (mkdir_tree env (tree w)) w)).

(** [p.write_text(json.dumps(v, indent=2), encoding='utf-8')].  The file is
    opened for writing, which creates or empties it, and the text is then
    written.  A call that fails before the file is open changes nothing; one
    that fails later leaves a file that holds at most a part of the text,
    which does not parse. *)
Definition write_text (p : CachePath) (v : json) : M unit := λ w,
  let called := record [EvWriteText p v] w in
  let opened := at_tree (write_tree env p (present (file p w)) (tree w)) called in
  match io_fault env (OpWrite p) with
  | None => (Ok tt, set_file p (Json v) opened)
  | Some e =>
      (Raise (OSErr e),
       if io_torn env p then set_file p (Unreadable JSONDecodeError) opened
       else called)
  end.

(** [envoy.discover_bundles_auto()] *)
Definition discover : M (list Bundle) := λ w,
  (Ok (discover_bundles_auto env), record [EvDiscover] w).

(** [os.environ.get('ENVOY_BNDL_ROOTS', '')] *)
Definition bndl_roots : string :=
  match environ env !! "ENVOY_BNDL_ROOTS" with
  | Some s => s
  | None => ""
  end.

(** The part of [write_local_bundles] after the up-to-date test. *)
Definition regenerate (roots_str : string) : M CachePath :=
  log Scanning;;
  bundles ← discover;
  let bundle_paths := List.map root bundles in
  mkdir;;
  write_text LOCAL_BUNDLES_PATH (bundles_doc bundle_paths);;
  log (Wrote (List.length bundle_paths));;
  let roots := split_roots roots_str in
  mtimes ← scan_mtimes roots;
  write_text _META_PATH (meta_doc roots_str mtimes);;
  ret LOCAL_BUNDLES_PATH.

Definition write_local_bundles (force : bool) : M CachePath :=
  let roots_str := bndl_roots in
  (* [not force and not _is_stale(roots_str)] *)
  fresh ← (if negb force then negb <$> _is_stale roots_str else ret false);
  if (fresh : bool) then
    log UpToDate;; ret LOCAL_BUNDLES_PATH
  else regenerate roots_str.

(** The fingerprint of the roots named by a roots string, on a tree where
    the scan returns one. *)
Definition fingerprint (t : FileSystem) (roots_str : string) : Mtimes :=
  match (_scan_mtimes Path t (split_roots roots_str)).1 with
  | Ok mtimes => mtimes
  | Raise _ => ∅
  end.

(** The debug records of that scan. *)
Definition scan_log (t : FileSystem) (roots_str : string) : list event :=
  List.map (λ l, EvLog (CouldNotStat l.1 l.2))
    (_scan_mtimes Path t (split_roots roots_str)).2.

(** The tree a regeneration started in [w] scans for its fingerprint: the
    cache directory has been created and the Result File written. *)
Definition tree_at_scan (w : World) : FileSystem :=
  write_tree env LOCAL_BUNDLES_PATH (present (local_bundles w))
    (mkdir_tree env (tree w)).

(** The tree it leaves: the Metadata File has been written as well. *)
Definition tree_after (w : World) : FileSystem :=
  write_tree env _META_PATH (present (meta_file w)) (tree_at_scan w).

(** Writing the Metadata File changes nothing of what the fingerprint of
    the configured roots records. *)
Definition metadata_write_untracked (w : World) : Prop :=
  (_scan_mtimes Path (tree_after w) (split_roots bndl_roots)).1
  = (_scan_mtimes Path (tree_at_scan w) (split_roots bndl_roots)).1.

(** What a regeneration started in [w] writes. *)
Definition new_bundles : json :=
  bundles_doc (List.map root (discover_bundles_auto env)).

Definition new_meta (w : World) (roots_str : string) : json :=
  meta_doc roots_str (fingerprint (tree_at_scan w) roots_str).

(** The separator-split, whitespace-trimmed, non-empty segments of a roots
    string. *)
Definition segments (roots_str : string) : list string :=
  List.filter PyStr.truthy
    (List.map PyStr.strip (PyStr.split sep roots_str)).

(** A member of the Metadata File's object, if it is an object with it. *)
Definition field (meta : json) (key : string) : option json :=
  match meta with
  | JObj d => d !! key
  | _ => None
  end.

(** Stale when the Result File is missing, or the Metadata File is missing,
    or it cannot be parsed, or the stored roots string is not the supplied
    one, or the fingerprint of the segments differs from the stored one (an
    absent one counting as empty). *)
Definition stale_by_spec (roots_str : string) (w : World) : bool :=
  match local_bundles w, meta_file w with
  | None, _ => true
  | Some _, None => true
  | Some _, Some (Unreadable _) => true
  | Some _, Some (Json meta) =>
      match field meta "bndl_roots" with
      | Some (JStr s) =>
          if String.eqb s roots_str then
            match (_scan_mtimes Path (tree w) (segments roots_str)).1 with
            | Ok mtimes =>
                negb (mtimes_eq mtimes
                        (match field meta "depth2_mtimes" with
                         | Some v => v
                         | None => JObj ∅
                         end))
            | Raise _ => true
            end
          else true
      | _ => true
      end
  end.

(** The Metadata File, when both files exist and it parses, is an object. *)
Definition meta_is_object (w : World) : Prop :=
  ∀ c v, local_bundles w = Some c → meta_file w = Some (Json v) →
         ∃ d, v = JObj d.

(** [exists()] answers for both cache paths. *)
Definition examinable (w : World) : Prop :=
  ∀ p, file p w = None → exists_error w p = None.

End Wrapper.

(** ** Observing a trace *)

Definition is_scan (e : event) : bool :=
  match e with EvDiscover => true | _ => false end.

Definition is_write (e : event) : bool :=
  match e with EvMkdir | EvWriteText _ _ => true | _ => false end.

Definition is_check (e : event) : bool :=
  match e with EvExists _ | EvReadText _ => true | _ => false end.

(** Number of calls of the discovery scan. *)
Definition scans (evs : list event) : nat := List.length (List.filter is_scan evs).

(** The calls that create or write something. *)
Definition writes (evs : list event) : list event := List.filter is_write evs.

(** The calls [_is_stale] makes on the cache files. *)
Definition checks (evs : list event) : list event := List.filter is_check evs.

(** [json.load] of the Result File followed by [["bundles"]], as a consumer
    reads the list back. *)
Fixpoint strings (l : list json) : option (list string) :=
  match l with
  | [] => Some []
  | JStr s :: rest =>
      match strings rest with Some ss => Some (s :: ss) | None => None end
  | _ => None
  end.

Definition read_bundles (w : World) : option (list string) :=
  match local_bundles w with
  | Some (Json (JObj d)) =>
      match d !! "bundles" with
      | Some (JArr l) => strings l
      | _ => None
      end
  | _ => None
  end.

(** ** Concrete inputs *)

(** Paths that are already in normal form. *)
Definition plain_path (s : string) : string := s.

(** [/r] holds the directory [/r/a] and the file [/r/f]; nothing else exists. *)
Definition ex_tree : FileSystem := {|
  is_dir p := inr (String.eqb p "/r" || String.eqb p "/r/a");
  stat_mtime p :=
    if String.eqb p "/r" then inr 5
    else if String.eqb p "/r/a" then inr 7
    else if String.eqb p "/r/f" then inr 9
    else inl FileNotFoundError;
  children_of p := if String.eqb p "/r" then ["/r/a"; "/r/f"] else [];
  listing_error p :=
    if String.eqb p "/r" || String.eqb p "/r/a" then None
    else Some NotADirectoryError;
|}.

(** [/r] lists the directories [/r/c1] and [/r/c2]; [/r/c1] is gone by the
    time it is stat'ed. *)
Definition ex_tree_race : FileSystem := {|
  is_dir p :=
    inr (String.eqb p "/r" || String.eqb p "/r/c1" || String.eqb p "/r/c2");
  stat_mtime p :=
    if String.eqb p "/r" then inr 5
    else if String.eqb p "/r/c2" then inr 7
    else inl FileNotFoundError;
  children_of p := if String.eqb p "/r" then ["/r/c1"; "/r/c2"] else [];
  listing_error p := None;
|}.

(** [/r] holds the directory [/r/a], and may not be listed. *)
Definition ex_tree_unlistable : FileSystem := {|
  is_dir p := inr (String.eqb p "/r" || String.eqb p "/r/a");
  stat_mtime p :=
    if String.eqb p "/r" then inr 5
    else if String.eqb p "/r/a" then inr 7
    else inl FileNotFoundError;
  children_of p := if String.eqb p "/r" then ["/r/a"] else [];
  listing_error p := if String.eqb p "/r" then Some PermissionError else None;
|}.

(** [ex_tree] next to a directory [/locked] that may not be searched: the
    [stat] of anything below it, and so [is_dir], raises [PermissionError]. *)
Definition ex_tree_locked : FileSystem := {|
  is_dir p :=
    if String.eqb p "/locked/repos" then inl PermissionError
    else is_dir ex_tree p;
  stat_mtime p :=
    if String.eqb p "/locked/repos" then inl PermissionError
    else stat_mtime ex_tree p;
  children_of := children_of ex_tree;
  listing_error p :=
    if String.eqb p "/locked/repos" then Some PermissionError
    else listing_error ex_tree p;
|}.

(** Every call succeeds, and the cache directory is away from the roots:
    creating it and writing the cache files changes nothing of the tree the
    scan sees. *)
Definition ex_env : Env := {|
  os_name := "posix";
  environ := {[ "ENVOY_BNDL_ROOTS" := "/r: /s" ]};
  discover_bundles_auto := [ {| root := "x" |}; {| root := "y" |} ];
  io_fault := λ _, None;
  io_torn := λ _, false;
  mkdir_tree := λ t, t;
  write_tree := λ _ _ t, t;
|}.

(** The only configured root does not exist. *)
Definition ex_env_no_root : Env := {|
  os_name := "posix";
  environ := {[ "ENVOY_BNDL_ROOTS" := "/missing" ]};
  discover_bundles_auto := [];
  io_fault := λ _, None;
  io_torn := λ _, false;
  mkdir_tree := λ t, t;
  write_tree := λ _ _ t, t;
|}.

(** The second configured root cannot be examined. *)
Definition ex_env_locked : Env := {|
  os_name := "posix";
  environ := {[ "ENVOY_BNDL_ROOTS" := "/r:/locked/repos" ]};
  discover_bundles_auto := [ {| root := "x" |}; {| root := "y" |} ];
  io_fault := λ _, None;
  io_torn := λ _, false;
  mkdir_tree := λ t, t;
  write_tree := λ _ _ t, t;
|}.

Definition ex_no_cache : World :=
  {| tree := ex_tree; local_bundles := None; meta_file := None;
     exists_error := λ _, None; trace := [] |}.

(** The cache after a first call on no cache. *)
Definition ex_cached : World :=
  (write_local_bundles plain_path ex_env false ex_no_cache).2.

(** A Result File next to a Metadata File holding the JSON text [[]]. *)
Definition ex_list_meta : World :=
  {| tree := ex_tree;
     local_bundles := Some (Json (bundles_doc []));
     meta_file := Some (Json (JArr []));
     exists_error := λ _, None;
     trace := [] |}.

(** A Metadata File holding [{"bndl_roots": "/missing"}] only. *)
Definition ex_short_meta : World :=
  {| tree := ex_tree;
     local_bundles := Some (Json (bundles_doc []));
     meta_file := Some (Json (JObj {[ "bndl_roots" := JStr "/missing" ]}));
     exists_error := λ _, None;
     trace := [] |}.

(** A cache pair written for the same roots string when the second root
    did not exist, under the tree in which it cannot be examined. *)
Definition ex_old_cache : World :=
  {| tree := ex_tree_locked;
     local_bundles := Some (Json (bundles_doc ["old"]));
     meta_file :=
       Some (Json (meta_doc "/r:/locked/repos" (<["/r" := 5]> {[ "/r/a" := 7 ]})));
     exists_error := λ _, None;
     trace := [] |}.

(** [/r] lists [/r/c1], a link into a directory that may not be searched,
    and then the directory [/r/c2]. *)
Definition ex_tree_link : FileSystem := {|
  is_dir p :=
    if String.eqb p "/r/c1" then inl PermissionError
    else inr (String.eqb p "/r" || String.eqb p "/r/c2");
  stat_mtime p :=
    if String.eqb p "/r" then inr 5
    else if String.eqb p "/r/c2" then inr 7
    else inl PermissionError;
  children_of p := if String.eqb p "/r" then ["/r/c1"; "/r/c2"] else [];
  listing_error p := None;
|}.

(** The same environment later on, with a cache directory that can no
    longer be written, and a scan that would find nothing. *)
Definition ex_env_readonly : Env := {|
  os_name := "posix";
  environ := {[ "ENVOY_BNDL_ROOTS" := "/r: /s" ]};
  discover_bundles_auto := [];
  io_fault := λ _, Some PermissionError;
  io_torn := λ _, false;
  mkdir_tree := λ t, t;
  write_tree := λ _ _ t, t;
|}.

(** The tree with the modification time of the directory [dir] moved on. *)
Definition touched (dir : string) (t : FileSystem) : FileSystem := {|
  is_dir := is_dir t;
  stat_mtime p :=
    if String.eqb p dir then
      match stat_mtime t p with
      | inr n => inr (n + 1)
      | inl e => inl e
      end
    else stat_mtime t p;
  children_of := children_of t;
  listing_error := listing_error t;
|}.

(** The root [/u/gt] holds the cache directory [/u/gt/envoy], which exists
    and is empty. *)
Definition ex_tree_home : FileSystem := {|
  is_dir p := inr (String.eqb p "/u/gt" || String.eqb p "/u/gt/envoy");
  stat_mtime p :=
    if String.eqb p "/u/gt" then inr 10
    else if String.eqb p "/u/gt/envoy" then inr 20
    else inl FileNotFoundError;
  children_of p := if String.eqb p "/u/gt" then ["/u/gt/envoy"] else [];
  listing_error p :=
    if String.eqb p "/u/gt" || String.eqb p "/u/gt/envoy" then None
    else Some FileNotFoundError;
|}.

(** The cache directory is [/u/gt/envoy], a subdirectory of the configured
    root: creating a cache file in it moves its modification time, writing
    one that is there does not. *)
Definition ex_env_home : Env := {|
  os_name := "posix";
  environ := {[ "ENVOY_BNDL_ROOTS" := "/u/gt" ]};
  discover_bundles_auto := [ {| root := "/u/gt/repo" |} ];
  io_fault := λ _, None;
  io_torn := λ _, false;
  mkdir_tree := λ t, t;
  write_tree := λ _ was_there t, if was_there then t else touched "/u/gt/envoy" t;
|}.

Definition ex_home : World :=
  {| tree := ex_tree_home; local_bundles := None; meta_file := None;
     exists_error := λ _, None; trace := [] |}.

(** What a first call, and then a second one, leave there. *)
Definition ex_home_first : World :=
  (write_local_bundles plain_path ex_env_home false ex_home).2.

Definition ex_home_second : World :=
  (write_local_bundles plain_path ex_env_home false ex_home_first).2.

(** What a first call that cannot create the cache directory leaves. *)
Definition ex_failed_first : World :=
  (write_local_bundles plain_path ex_env_readonly false ex_no_cache).2.

(** [/r] alone, before [/r/a] is created. *)
Definition ex_tree_bare : FileSystem := {|
  is_dir p := inr (String.eqb p "/r");
  stat_mtime p := if String.eqb p "/r" then inr 4 else inl FileNotFoundError;
  children_of p := [];
  listing_error p := if String.eqb p "/r" then None else Some FileNotFoundError;
|}.

Definition ex_env_bare : Env := {|
  os_name := "posix";
  environ := {[ "ENVOY_BNDL_ROOTS" := "/r: /s" ]};
  discover_bundles_auto := [];
  io_fault := λ _, None;
  io_torn := λ _, false;
  mkdir_tree := λ t, t;
  write_tree := λ _ _ t, t;
|}.

(** [ENVOY_BNDL_ROOTS] holds separators and blanks only. *)
Definition ex_env_blank : Env := {|
  os_name := "posix";
  environ := {[ "ENVOY_BNDL_ROOTS" := " : :" ]};
  discover_bundles_auto := [ {| root := "x" |} ];
  io_fault := λ _, None;
  io_torn := λ _, false;
  mkdir_tree := λ t, t;
  write_tree := λ _ _ t, t;
|}.

(** ** Roots strings put together *)

(** [sep.join(l)] *)
Fixpoint join (sep : string) (l : list string) : string :=
  match l with
  | [] => ""
  | x :: rest =>
      match rest with
      | [] => x
      | _ => String.append x (String.append sep (join sep rest))
      end
  end.

(** No character of [s] is [c]. *)
Fixpoint lacks (c : ascii) (s : string) : bool :=
  match s with
  | EmptyString => true
  | String a s' => negb (Ascii.eqb a c) && lacks c s'
  end.

(** The first character, if any, is not whitespace. *)
Definition head_clean (s : string) : bool :=
  match s with
  | EmptyString => true
  | String c _ => negb (PyStr.isspace c)
  end.

(** A root as it comes out of a roots string: not empty, without the
    separator, without whitespace at either end. *)
Definition clean_root (env : Env) (x : string) : Prop :=
  x ≠ "" ∧ PyStr.strip x = x ∧ lacks (sep env) x = true.

(** The write calls of a regeneration started in [w], in the order of the
    source. *)
Definition write_plan (Path : string → string) (env : Env) (w : World)
  : list event :=
  [EvMkdir;
   EvWriteText LOCAL_BUNDLES_PATH (new_bundles env);
   EvWriteText _META_PATH (new_meta Path env w (bndl_roots env))].

(** ** The launcher: [resolve_code_exe], [launch_vscode] and [main] *)

(** What the launcher asks of the machine besides the cache. *)
Record Host := {
  (** [Path(p).exists()]: [False] for a path that is not there, an
      exception for one that cannot be examined *)
  path_exists : string → OSError + bool;
  (** [shutil.which(cmd)] *)
  which : string → option string;
  (** the exception [envoy.proc.spawn] meets for a command line, if any *)
  spawn_fault : list string → option exn;
  (** [proc.returncode] once [proc.wait()] has returned *)
  exit_status : list string → Z;
}.

(** The process [envoy.proc.spawn] returns: its command line and the
    environment it inherits. *)
Record Popen := {
  popen_args : list string;
  popen_environ : gmap string string;
}.

Inductive raised :=
  | CodeNotFound (msg : string)
  | Uncaught (e : exn)
  | TypeError
  | SystemExit (code : Z).

Inductive outcome (A : Type) :=
  | Return (a : A)
  | Throw (e : raised).
Arguments Return {A} a.
Arguments Throw {A} e.

Inductive launch_record :=
  | SpawningVSCode (code_exe : string) (extra_args : list string)
  | LaunchFailed (exc : raised)
  | ExitedWith (code : Z).

Inductive launch_event :=
  | LvLog (r : launch_record)
  | LvSpawn (argv : list string) (child_environ : gmap string string)
  | LvWait (argv : list string).

(** The file system, [os.environ], and what the launcher has done so far. *)
Record Session := {
  cache : World;
  os_environ : gmap string string;
  launches : list launch_event;
}.

(** The environment of the wrapper with [os.environ] as it is now. *)
Definition at_environ (env : Env) (environ : gmap string string) : Env :=
  {| os_name := os_name env; environ := environ;
     discover_bundles_auto := discover_bundles_auto env;
     io_fault := io_fault env; io_torn := io_torn env;
     mkdir_tree := mkdir_tree env; write_tree := write_tree env |}.

(** [if found:] for the answer of [shutil.which] *)
Definition found_truthy (found : option string) : option string :=
  match found with
  | Some f => if PyStr.truthy f then Some f else None
  | None => None
  end.

Section Launcher.

(** [str(Path(s))], [str(Path(a) / b)] and [str(Path(s).expanduser())] *)
Variable Path : string → string.
Variable joinpath : string → string → string.
Variable expanduser : string → string.
(** [os.environ] when the module was imported: the module constants are
    built from it. *)
Variable import_environ : gmap string string.
Variable env : Env.
Variable host : Host.

(** [Path(os.environ.get('LOCALAPPDATA') or '~').expanduser()] *)
Definition _LOCAL_DATA : string :=
  expanduser
    (Path (match import_environ !! "LOCALAPPDATA" with
           | Some v => if PyStr.truthy v then v else "~"
           | None => "~"
           end)).

Definition _CONFIG_DIR : string := joinpath (joinpath _LOCAL_DATA "gt") "envoy".

(** [str(p)] for the two cache paths *)
Definition cache_path_str (p : CachePath) : string :=
  match p with
  | LOCAL_BUNDLES_PATH => joinpath _CONFIG_DIR "local_bundles.json"
  | _META_PATH => joinpath _CONFIG_DIR "local_bundles_meta.json"
  end.

Definition _FALLBACK_CODE_PATHS : list string :=
  [ joinpath
      (joinpath
         (joinpath
            (Path (match import_environ !! "LOCALAPPDATA" with
                   | Some v => v
                   | None => ""
                   end))
            "Programs")
         "Microsoft VS Code")
      "Code.exe";
    Path "C:/Program Files/Microsoft VS Code/Code.exe" ].

(** The loop [for candidate in _FALLBACK_CODE_PATHS]: the first candidate
    that exists, unless a candidate before it cannot be examined. *)
Fixpoint first_existing (candidates : list string) : OSError + option string :=
  match candidates with
  | [] => inr None
  | candidate :: rest =>
      match path_exists host candidate with
      | inl e => inl e
      | inr true => inr (Some candidate)
      | inr false => first_existing rest
      end
  end.

(** The text of the [FileNotFoundError] *)
Definition not_found_message : string :=
  String.append "Cannot locate the VS Code executable. "
    (String.append "Tried PATH and fallback locations ("
       (String.append (join ", " _FALLBACK_CODE_PATHS)
          "). Set VSCODE_EXE in vscode_env.json to override.")).

(** [os.environ.get('VSCODE_EXE', '').strip()] *)
Definition explicit_exe (environ : gmap string string) : string :=
  PyStr.strip (match environ !! "VSCODE_EXE" with Some v => v | None => "" end).

(** [explicit and Path(explicit).exists()] *)
Definition explicit_exists (explicit : string) : OSError + bool :=
  if PyStr.truthy explicit then path_exists host (Path explicit) else inr false.

Definition resolve_code_exe (environ : gmap string string) : outcome string :=
  let explicit := explicit_exe environ in
  match explicit_exists explicit with
  | inl e => Throw (Uncaught (OSErr e))
  | inr true => Return explicit
  | inr false =>
      match found_truthy (which host "code") with
      | Some found => Return found
      | None =>
          match first_existing _FALLBACK_CODE_PATHS with
          | inl e => Throw (Uncaught (OSErr e))
          | inr (Some candidate) => Return candidate
          | inr None => Throw (CodeNotFound not_found_message)
          end
      end
  end.

Definition launch_vscode (extra_args : list string) (s : Session)
  : outcome Popen * Session :=
  match write_local_bundles Path (at_environ env (os_environ s)) false (cache s) with
  | (Raise e, w') =>
      (Throw (Uncaught e),
       {| cache := w'; os_environ := os_environ s; launches := launches s |})
  | (Ok bundles_config, w') =>
      match resolve_code_exe (os_environ s) with
      | Throw e =>
          (Throw e,
           {| cache := w'; os_environ := os_environ s; launches := launches s |})
      | Return code_exe =>
          let environ' :=
            <[ "ENVOY_BUNDLES_CONFIG" := cache_path_str bundles_config ]>
              (os_environ s) in
          let argv := code_exe :: extra_args in
          let s' :=
            {| cache := w'; os_environ := environ';
               launches := launches s
                           ++ [LvLog (SpawningVSCode code_exe extra_args);
                               LvSpawn argv environ'] |} in
          match spawn_fault host argv with
          | Some e => (Throw (Uncaught e), s')
          | None =>
              (Return {| popen_args := argv; popen_environ := environ' |}, s')
          end
      end
  end.

(** What a name of the module [_wrapper] is bound to. *)
Inductive attr :=
  | AttrLauncher (f : list string → Session → outcome Popen * Session)
  | AttrOther.

(** The names [_wrapper.py] binds at top level, in order. *)
Definition _wrapper_globals : list (string * attr) :=
  [ ("annotations", AttrOther); ("json", AttrOther); ("logging", AttrOther);
    ("os", AttrOther); ("shutil", AttrOther); ("subprocess", AttrOther);
    ("Path", AttrOther); ("envoy", AttrOther); ("log", AttrOther);
    ("_LOCAL_DATA", AttrOther); ("_CONFIG_DIR", AttrOther);
    ("LOCAL_BUNDLES_PATH", AttrOther); ("_META_PATH", AttrOther);
    ("_scan_mtimes", AttrOther); ("_is_stale", AttrOther);
    ("write_local_bundles", AttrOther); ("_FALLBACK_CODE_PATHS", AttrOther);
    ("resolve_code_exe", AttrOther); ("launch_vscode", AttrLauncher launch_vscode) ].

(** [wrapper.<name>] *)
Fixpoint getattr (globals : list (string * attr)) (name : string) : option attr :=
  match globals with
  | [] => None
  | (n, a) :: rest => if String.eqb n name then Some a else getattr rest name
  end.

(** [except FileNotFoundError] *)
Definition is_file_not_found (e : raised) : bool :=
  match e with
  | CodeNotFound _ => true
  | Uncaught (OSErr FileNotFoundError) => true
  | _ => false
  end.

Definition add_launch (ev : launch_event) (s : Session) : Session :=
  {| cache := cache s; os_environ := os_environ s;
     launches := launches s ++ [ev] |}.

(** [main()] of [__main__.py], [sys_argv] being [sys.argv]. *)
Definition main (sys_argv : list string) (s : Session) : outcome unit * Session :=
  let extra_args := List.tl sys_argv in
  match getattr _wrapper_globals "launch" with
  | None => (Throw (Uncaught AttributeError), s)
  | Some AttrOther => (Throw TypeError, s)
  | Some (AttrLauncher launch) =>
      match launch extra_args s with
      | (Throw e, s') =>
          if is_file_not_found e then
            (Throw (SystemExit 1), add_launch (LvLog (LaunchFailed e)) s')
          else (Throw e, s')
      | (Return proc, s') =>
          let s'' := add_launch (LvWait (popen_args proc)) s' in
          let code := exit_status host (popen_args proc) in
          if code =? 0 then (Return tt, s'')
          else (Throw (SystemExit code), add_launch (LvLog (ExitedWith code)) s'')
      end
  end.

End Launcher.

(** ** More concrete inputs *)

(** [code] is on [PATH]; no other candidate exists. *)
Definition ex_host : Host := {|
  path_exists p := inr false;
  which cmd := if String.eqb cmd "code" then Some "/usr/bin/code" else None;
  spawn_fault argv := None;
  exit_status argv := 0;
|}.

Definition ex_joinpath (a b : string) : string :=
  String.append a (String "/" b).

Definition ex_session : Session := {|
  cache := ex_no_cache;
  os_environ := {[ "ENVOY_BNDL_ROOTS" := "/r: /s" ]};
  launches := [];
|}.

(** The process and the session a first launch gives. *)
Definition ex_proc : Popen := {|
  popen_args := ["/usr/bin/code"];
  popen_environ :=
    <[ "ENVOY_BUNDLES_CONFIG" := "~/gt/envoy/local_bundles.json" ]>
      {[ "ENVOY_BNDL_ROOTS" := "/r: /s" ]};
|}.

Definition ex_launched : Session :=
  (launch_vscode plain_path ex_joinpath plain_path ∅ ex_env ex_host []
     ex_session).2.

(** * Properties *)

(** ** The fingerprint as a sequence of stores *)

Section FingerprintFacts.

Variable Path : string → string.
Variable fs : FileSystem.

Lemma store_app m es es' :
  store m (es ++ es')%list = store (store m es) es'.
Proof. apply foldl_app. Qed.

Lemma scan_children_store children m :
  scan_children fs children m
  = (store m (child_entries fs children),
     match children_error fs children with
     | Some e => Raise (OSErr e)
     | None => Ok tt
     end).
Proof.
  revert m. induction children as [|c cs IH]; intros m; simpl; [done|].
  destruct (is_dir fs c) as [e|[]]; [done| |apply IH].
  destruct (stat_mtime fs c) as [e|t]; [done|].
  rewrite IH. done.
Qed.

Lemma scan_root_store root m :
  scan_root fs root m
  = (store m (root_entries fs root),
     match root_error fs root with
     | Some e => Raise (OSErr e)
     | None => Ok tt
     end).
Proof.
  unfold scan_root, root_entries, root_error.
  destruct (stat_mtime fs root) as [e|t]; [done|].
  destruct (iterdir fs root) as [e|cs]; [done|].
  rewrite scan_children_store. done.
Qed.

Lemma is_directory_true p : is_directory fs p = true ↔ is_dir fs p = inr true.
Proof. unfold is_directory. destruct (is_dir fs p) as [e|[]]; split; done. Qed.

(** The loop, root by root: it raises at the first root that cannot be
    examined, and otherwise returns what the [try] blocks stored. *)
Lemma scan_loop_run roots m logged :
  scan_loop Path fs roots m logged
  = (match examine_error Path fs roots with
     | Some e => Raise (OSErr e)
     | None => Ok (store m (entries Path fs roots))
     end, (logged ++ failures Path fs roots)%list).
Proof.
  revert m logged. induction roots as [|r rs IH]; intros m logged; simpl.
  - by rewrite app_nil_r.
  - unfold entries in *. simpl. unfold is_directory.
    destruct (is_dir fs (Path r)) as [e|[]]; simpl.
    + by rewrite app_nil_r.
    + rewrite scan_root_store.
      destruct (root_error fs (Path r)) as [e|]; rewrite IH;
        destruct (examine_error Path fs rs); rewrite ?store_app, <- ?app_assoc; done.
    + apply IH.
Qed.

Lemma scan_mtimes_run roots :
  _scan_mtimes Path fs roots
  = (match examine_error Path fs roots with
     | Some e => Raise (OSErr e)
     | None => Ok (store ∅ (entries Path fs roots))
     end, failures Path fs roots).
Proof. unfold _scan_mtimes. by rewrite scan_loop_run. Qed.

Lemma scan_returns roots m :
  (_scan_mtimes Path fs roots).1 = Ok m
  ↔ examine_error Path fs roots = None ∧ m = store ∅ (entries Path fs roots).
Proof.
  rewrite scan_mtimes_run. simpl.
  destruct (examine_error Path fs roots) as [e|]; split.
  - done.
  - by intros [? _].
  - by intros [= <-].
  - by intros [_ ->].
Qed.

Lemma scan_raises roots e :
  (_scan_mtimes Path fs roots).1 = Raise e
  ↔ ∃ oe, examine_error Path fs roots = Some oe ∧ e = OSErr oe.
Proof.
  rewrite scan_mtimes_run. simpl.
  destruct (examine_error Path fs roots) as [oe|]; split.
  - intros [= <-]. by exists oe.
  - by intros (? & [= <-] & ->).
  - done.
  - by intros (? & ? & _).
Qed.

Lemma examine_error_none roots :
  examine_error Path fs roots = None
  ↔ ∀ r, r ∈ roots → ∃ b, is_dir fs (Path r) = inr b.
Proof.
  induction roots as [|r rs IH]; simpl.
  - split; [by intros _ r ?%elem_of_nil|done].
  - destruct (is_dir fs (Path r)) as [e|b] eqn:Hd.
    + split; [done|]. intros H.
      destruct (H r) as [b Hb]; [apply elem_of_cons; by left|congruence].
    + rewrite IH. split.
      * intros H x [->|Hx]%elem_of_cons; [by exists b|auto].
      * intros H x Hx. apply H, elem_of_cons. by right.
Qed.

Lemma examine_error_some roots e :
  examine_error Path fs roots = Some e →
  ∃ r, r ∈ roots ∧ is_dir fs (Path r) = inl e.
Proof.
  induction roots as [|r rs IH]; simpl; [done|].
  destruct (is_dir fs (Path r)) as [e'|b] eqn:Hd.
  - intros [= ->]. exists r. split; [apply elem_of_cons; by left|done].
  - intros (x & Hx & Hxe)%IH. exists x. split; [apply elem_of_cons; by right|done].
Qed.

(** Every stored value is what [stat] answers for the key. *)
Lemma child_entries_stat children k t :
  (k, t) ∈ child_entries fs children → stat_mtime fs k = inr t.
Proof.
  induction children as [|c cs IH]; simpl; [by intros ?%elem_of_nil|].
  destruct (is_dir fs c) as [e|[]]; [by intros ?%elem_of_nil| |done].
  destruct (stat_mtime fs c) as [e|t'] eqn:E; [by intros ?%elem_of_nil|].
  intros [[= -> ->]|?]%elem_of_cons; auto.
Qed.

Lemma root_entries_stat root k t :
  (k, t) ∈ root_entries fs root → stat_mtime fs k = inr t.
Proof.
  unfold root_entries. destruct (stat_mtime fs root) as [e|t'] eqn:E.
  { by intros ?%elem_of_nil. }
  intros [[= -> ->]|H]%elem_of_cons; [done|].
  destruct (iterdir fs root); [by apply elem_of_nil in H|].
  by eapply child_entries_stat.
Qed.

Lemma elem_of_entries roots k t :
  (k, t) ∈ entries Path fs roots
  ↔ ∃ r, r ∈ roots ∧ is_dir fs (Path r) = inr true
         ∧ (k, t) ∈ root_entries fs (Path r).
Proof.
  unfold entries. rewrite list_elem_of_join. split.
  - intros (l & Hk & Hl). apply list_elem_of_In, in_map_iff in Hl as (r & <- & Hr).
    apply list_elem_of_In in Hr. exists r.
    destruct (is_directory fs (Path r)) eqn:Hd; [|by apply elem_of_nil in Hk].
    by apply is_directory_true in Hd.
  - intros (r & Hr & Hd & Hk). exists (root_entries fs (Path r)). split; [done|].
    apply list_elem_of_In, in_map_iff. exists r.
    rewrite (proj2 (is_directory_true _) Hd).
    split; [done|by apply list_elem_of_In].
Qed.

Lemma entries_stat roots k t :
  (k, t) ∈ entries Path fs roots → stat_mtime fs k = inr t.
Proof.
  intros (r & _ & _ & H)%elem_of_entries. by eapply root_entries_stat.
Qed.

(** Stores that agree on repeated keys: the dict holds exactly the pairs
    stored. *)
Lemma store_lookup (es : list (string * Z)) k t :
  (∀ k t, (k, t) ∈ es → stat_mtime fs k = inr t) →
  store ∅ es !! k = Some t ↔ (k, t) ∈ es.
Proof.
  induction es as [|[k' t'] es IH] using rev_ind; intros Hes.
  - unfold store. simpl. rewrite lookup_empty. split; [done|by intros ?%elem_of_nil].
  - rewrite store_app. unfold store at 1. simpl.
    rewrite elem_of_app, list_elem_of_singleton.
    destruct (decide (k' = k)) as [->|Hne].
    + rewrite lookup_insert_eq. split.
      * intros [= ->]. by right.
      * intros [H|[= ->]]; [|done].
        assert (stat_mtime fs k = inr t) as E1 by (apply Hes, elem_of_app; auto).
        assert (stat_mtime fs k = inr t') as E2.
        { apply Hes, elem_of_app. right. by apply list_elem_of_singleton. }
        congruence.
    + rewrite lookup_insert_ne by done. rewrite IH.
      * split; [auto|]. intros [H|[= ? ?]]; [done|congruence].
      * intros k0 t0 H. apply Hes, elem_of_app. auto.
Qed.

Lemma scan_lookup roots k t :
  store ∅ (entries Path fs roots) !! k = Some t
  ↔ ∃ r, r ∈ roots ∧ is_dir fs (Path r) = inr true
         ∧ (k, t) ∈ root_entries fs (Path r).
Proof. rewrite store_lookup; [apply elem_of_entries|apply entries_stat]. Qed.

Lemma child_entries_sound children k t :
  (k, t) ∈ child_entries fs children → k ∈ children ∧ is_dir fs k = inr true.
Proof.
  induction children as [|c cs IH]; simpl; [by intros ?%elem_of_nil|].
  destruct (is_dir fs c) as [e|[]] eqn:Hd.
  - by intros ?%elem_of_nil.
  - destruct (stat_mtime fs c) as [e|t']; [by intros ?%elem_of_nil|].
    intros [[= -> ->]|H]%elem_of_cons.
    + split; [apply elem_of_cons; by left|done].
    + destruct (IH H). split; [apply elem_of_cons; by right|done].
  - intros H. destruct (IH H). split; [apply elem_of_cons; by right|done].
Qed.

Lemma root_entries_sound root k t :
  (k, t) ∈ root_entries fs root →
  k = root ∨ (k ∈ children_of fs root ∧ is_dir fs k = inr true).
Proof.
  unfold root_entries, iterdir.
  destruct (stat_mtime fs root) as [e|t']; [by intros ?%elem_of_nil|].
  intros [[= -> ->]|H]%elem_of_cons; [by left|]. right.
  destruct (listing_error fs root); [by apply elem_of_nil in H|].
  by eapply child_entries_sound.
Qed.

Lemma child_entries_complete children k t :
  children_error fs children = None →
  (k, t) ∈ child_entries fs children
  ↔ k ∈ children ∧ is_dir fs k = inr true ∧ stat_mtime fs k = inr t.
Proof.
  induction children as [|c cs IH]; simpl; intros Herr.
  - split; [by intros ?%elem_of_nil|by intros [?%elem_of_nil _]].
  - destruct (is_dir fs c) as [e|[]] eqn:Hd; [done| |].
    + destruct (stat_mtime fs c) as [e|t'] eqn:Hs; [done|].
      rewrite !elem_of_cons, (IH Herr). split.
      * intros [[= -> ->]|(? & ? & ?)]; auto.
      * intros ([->|?] & ? & ?); [left; congruence|auto].
    + rewrite elem_of_cons, (IH Herr). split.
      * intros (? & ? & ?); auto.
      * intros ([->|?] & ? & ?); [congruence|auto].
Qed.

Lemma root_entries_complete root k t :
  root_error fs root = None →
  (k, t) ∈ root_entries fs root
  ↔ (k = root ∧ stat_mtime fs k = inr t)
    ∨ (k ∈ children_of fs root ∧ is_dir fs k = inr true ∧ stat_mtime fs k = inr t).
Proof.
  unfold root_error, root_entries, iterdir.
  destruct (stat_mtime fs root) as [e|t'] eqn:Hs; [done|].
  destruct (listing_error fs root) as [e|]; [done|]. intros Herr.
  rewrite elem_of_cons, (child_entries_complete _ _ _ Herr). split.
  - intros [[= -> ->]|?]; [left|right]; eauto.
  - intros [[-> ?]|?]; [left; congruence|by right].
Qed.

Lemma children_error_stat children c :
  children_error fs children = None → c ∈ children → is_dir fs c = inr true →
  ∃ t, stat_mtime fs c = inr t.
Proof.
  induction children as [|x xs IH]; simpl; [by intros _ ?%elem_of_nil|].
  intros Herr [->|Hin]%elem_of_cons Hd.
  - rewrite Hd in Herr. destruct (stat_mtime fs x); [done|by eexists].
  - destruct (is_dir fs x) as [e|[]]; [done| |by apply IH].
    destruct (stat_mtime fs x); [done|by apply IH].
Qed.

(** Only the elements of the root list matter for the fingerprint, not
    their order or number. *)
Lemma scan_same_roots (roots roots' : list string) :
  (∀ r, r ∈ roots ↔ r ∈ roots') →
  returned (_scan_mtimes Path fs roots).1 = returned (_scan_mtimes Path fs roots').1.
Proof.
  intros Hsame. rewrite !scan_mtimes_run. simpl.
  destruct (examine_error Path fs roots) as [e|] eqn:E1;
    destruct (examine_error Path fs roots') as [e'|] eqn:E2; simpl.
  - done.
  - apply examine_error_some in E1 as (r & Hr & Hd).
    destruct (proj1 (examine_error_none roots') E2 r) as [b Hb];
      [by apply Hsame|congruence].
  - apply examine_error_some in E2 as (r & Hr & Hd).
    destruct (proj1 (examine_error_none roots) E1 r) as [b Hb];
      [by apply Hsame|congruence].
  - f_equal. apply map_eq. intros k. apply option_eq. intros t.
    rewrite !scan_lookup. by setoid_rewrite Hsame.
Qed.

Lemma examine_error_app roots roots' :
  examine_error Path fs (roots ++ roots')
  = match examine_error Path fs roots with
    | Some e => Some e
    | None => examine_error Path fs roots'
    end.
Proof.
  induction roots as [|r rs IH]; simpl; [done|].
  by destruct (is_dir fs (Path r)).
Qed.

Lemma entries_app roots roots' :
  entries Path fs (roots ++ roots')
  = (entries Path fs roots ++ entries Path fs roots')%list.
Proof. unfold entries. by rewrite List.map_app, join_app. Qed.

Lemma failures_app roots roots' :
  failures Path fs (roots ++ roots')
  = (failures Path fs roots
     ++ match examine_error Path fs roots with
        | Some _ => []
        | None => failures Path fs roots'
        end)%list.
Proof.
  induction roots as [|r rs IH]; simpl; [done|].
  destruct (is_dir fs (Path r)) as [e|[]]; [done| |done].
  destruct (root_error fs (Path r)); by rewrite IH.
Qed.

Lemma store_entries_union roots roots' :
  store ∅ (entries Path fs (roots ++ roots'))
  = store ∅ (entries Path fs roots) ∪ store ∅ (entries Path fs roots').
Proof.
  apply map_eq. intros k. apply option_eq. intros t.
  rewrite lookup_union_Some_raw, !scan_lookup. split.
  - intros (r & [Hr|Hr]%elem_of_app & Hd & Hin).
    + left. by exists r.
    + destruct (store ∅ (entries Path fs roots) !! k) as [t'|] eqn:E.
      * left. apply scan_lookup in E as (r' & Hr' & Hd' & Hin').
        pose proof (root_entries_stat _ _ _ Hin) as E1.
        pose proof (root_entries_stat _ _ _ Hin') as E2.
        assert (t' = t) as -> by congruence.
        exists r'. by repeat split.
      * right. split; [done|]. by exists r.
  - intros [(r & Hr & Hd & Hin)|[_ (r & Hr & Hd & Hin)]];
      exists r; (split; [apply elem_of_app; auto|done]).
Qed.

End FingerprintFacts.

(** The comparison [_is_stale] makes with a stored fingerprint is equality
    of the two maps. *)
Lemma mtimes_eq_json (m m' : Mtimes) :
  mtimes_eq m (mtimes_json m') = true ↔ m = m'.
Proof.
  unfold mtimes_eq, mtimes_json.
  rewrite andb_true_iff, Nat.eqb_eq, forallb_forall, map_size_fmap. split.
  - intros [Hsize Hall]. apply map_subseteq_size_eq; [|lia].
    apply map_subseteq_spec. intros k t Hk.
    specialize (Hall (k, t)). simpl in Hall. rewrite lookup_fmap in Hall.
    destruct (m' !! k) as [n|]; simpl in Hall.
    + f_equal. symmetry. apply Z.eqb_eq, Hall.
      by apply list_elem_of_In, elem_of_map_to_list.
    + discriminate Hall. by apply list_elem_of_In, elem_of_map_to_list.
  - intros <-. split; [done|]. intros [k t] Hk%list_elem_of_In%elem_of_map_to_list.
    simpl. rewrite lookup_fmap, Hk. simpl. apply Z.eqb_refl.
Qed.

Lemma mtimes_eq_json_decide (m m' : Mtimes) :
  negb (mtimes_eq m (mtimes_json m')) = bool_decide (m ≠ m').
Proof.
  destruct (mtimes_eq m (mtimes_json m')) eqn:E; simpl; symmetry.
  - apply mtimes_eq_json in E. apply bool_decide_eq_false. by intros ?.
  - apply bool_decide_eq_true. intros Heq. apply mtimes_eq_json in Heq. congruence.
Qed.

Lemma mtimes_eq_empty (m : Mtimes) : negb (mtimes_eq m (JObj ∅)) = bool_decide (m ≠ ∅).
Proof.
  rewrite <- (mtimes_eq_json_decide m ∅). unfold mtimes_json. by rewrite fmap_empty.
Qed.

(** ** Running the monadic code *)

Lemma record_record evs evs' w :
  record evs' (record evs w) = record (evs ++ evs')%list w.
Proof. unfold record. simpl. by rewrite app_assoc. Qed.

Lemma record_nil w : record [] w = w.
Proof. destruct w. unfold record. simpl. by rewrite app_nil_r. Qed.

Lemma set_file_record p c evs w :
  set_file p c (record evs w) = record evs (set_file p c w).
Proof. by destruct p. Qed.

Lemma at_tree_record t evs w : at_tree t (record evs w) = record evs (at_tree t w).
Proof. done. Qed.

Lemma at_tree_set_file t p c w : at_tree t (set_file p c w) = set_file p c (at_tree t w).
Proof. by destruct p. Qed.

Lemma at_tree_at_tree t t' w : at_tree t (at_tree t' w) = at_tree t w.
Proof. done. Qed.

Section Runs.

Variable Path : string → string.
Variable env : Env.

Lemma scan_mtimes_call roots_str w :
  scan_mtimes Path (split_roots env roots_str) w
  = ((_scan_mtimes Path (tree w) (split_roots env roots_str)).1,
     record (scan_log Path env (tree w) roots_str) w).
Proof.
  unfold scan_mtimes, scan_log.
  by destruct (_scan_mtimes Path (tree w) (split_roots env roots_str)).
Qed.

Lemma is_stale_run roots_str w :
  _is_stale Path env roots_str w =
  match local_bundles w with
  | None =>
      (match exists_error w LOCAL_BUNDLES_PATH with
       | Some e => Raise (OSErr e)
       | None => Ok true
       end, record [EvExists LOCAL_BUNDLES_PATH] w)
  | Some _ =>
      match meta_file w with
      | None =>
          (match exists_error w _META_PATH with
           | Some e => Raise (OSErr e)
           | None => Ok true
           end, record [EvExists LOCAL_BUNDLES_PATH; EvExists _META_PATH] w)
      | Some (Unreadable _) =>
          (Ok true, record [EvExists LOCAL_BUNDLES_PATH; EvExists _META_PATH;
                            EvReadText _META_PATH] w)
      | Some (Json (JObj d)) =>
          if ne_str (stored d "bndl_roots" JNull) roots_str then
            (Ok true, record [EvExists LOCAL_BUNDLES_PATH; EvExists _META_PATH;
                              EvReadText _META_PATH; EvLog RootsChanged] w)
          else
            match (_scan_mtimes Path (tree w) (split_roots env roots_str)).1 with
            | Raise e =>
                (Raise e,
                 record ([EvExists LOCAL_BUNDLES_PATH; EvExists _META_PATH;
                          EvReadText _META_PATH]
                         ++ scan_log Path env (tree w) roots_str) w)
            | Ok mtimes =>
                if mtimes_eq mtimes (stored d "depth2_mtimes" (JObj ∅)) then
                  (Ok false,
                   record ([EvExists LOCAL_BUNDLES_PATH; EvExists _META_PATH;
                            EvReadText _META_PATH]
                           ++ scan_log Path env (tree w) roots_str) w)
                else
                  (Ok true,
                   record ([EvExists LOCAL_BUNDLES_PATH; EvExists _META_PATH;
                            EvReadText _META_PATH]
                           ++ scan_log Path env (tree w) roots_str
                           ++ [EvLog LayoutChanged]) w)
            end
      | Some (Json _) =>
          (Raise AttributeError,
           record [EvExists LOCAL_BUNDLES_PATH; EvExists _META_PATH;
                   EvReadText _META_PATH] w)
      end
  end.
Proof.
  unfold _is_stale, mbind, M_bind, fmap, M_fmap, exists_, try_except, load,
    lift, ret, log, emit.
  destruct w as [t b m xe tr].
  cbn [file local_bundles meta_file exists_error record tree trace].
  destruct b as [c|]; [|by destruct (xe LOCAL_BUNDLES_PATH)].
  simpl. rewrite ?record_record. simpl.
  destruct m as [[e|meta]|]; simpl; rewrite ?record_record; simpl;
    [done| |by destruct (xe _META_PATH)].
  destruct meta; try done. simpl.
  destruct (ne_str _ _); [by rewrite record_record|].
  rewrite scan_mtimes_call. cbn [tree record fst snd].
  destruct (_scan_mtimes Path t (split_roots env roots_str)).1;
    simpl; rewrite ?record_record; simpl; [|done].
  destruct (mtimes_eq _ _); simpl; rewrite ?record_record; simpl; done.
Qed.

Lemma regenerate_run roots_str w :
  regenerate Path env roots_str w =
  let t1 := mkdir_tree env (tree w) in
  let t2 := tree_at_scan env w in
  let t3 := tree_after env w in
  let called := [EvLog Scanning; EvDiscover; EvMkdir] in
  let wrote := (called ++ [EvWriteText LOCAL_BUNDLES_PATH (new_bundles env)])%list in
  match io_fault env OpMkdir with
  | Some e => (Raise (OSErr e), record called (at_tree t1 w))
  | None =>
      match io_fault env (OpWrite LOCAL_BUNDLES_PATH) with
      | Some e =>
          (Raise (OSErr e),
           if io_torn env LOCAL_BUNDLES_PATH then
             record wrote
               (set_file LOCAL_BUNDLES_PATH (Unreadable JSONDecodeError) (at_tree t2 w))
           else record wrote (at_tree t1 w))
      | None =>
          let w2 := set_file LOCAL_BUNDLES_PATH (Json (new_bundles env)) (at_tree t2 w) in
          let scanned :=
            (wrote ++ [EvLog (Wrote (List.length (discover_bundles_auto env)))]
             ++ scan_log Path env t2 roots_str)%list in
          match (_scan_mtimes Path t2 (split_roots env roots_str)).1 with
          | Raise e => (Raise e, record scanned w2)
          | Ok mtimes =>
              let all :=
                (scanned ++ [EvWriteText _META_PATH (meta_doc roots_str mtimes)])%list in
              match io_fault env (OpWrite _META_PATH) with
              | Some e =>
                  (Raise (OSErr e),
                   if io_torn env _META_PATH then
                     record all
                       (set_file _META_PATH (Unreadable JSONDecodeError) (at_tree t3 w2))
                   else record all w2)
              | None =>
                  (Ok LOCAL_BUNDLES_PATH,
                   record all
                     (set_file _META_PATH (Json (meta_doc roots_str mtimes))
                        (at_tree t3 w2)))
              end
          end
      end
  end.
Proof.
  unfold regenerate, mbind, M_bind, ret, log, emit, discover, mkdir, write_text,
    new_bundles, tree_after, tree_at_scan.
  destruct w as [t b m xe tr]. unfold record, at_tree. simpl.
  destruct (io_fault env OpMkdir); [by rewrite <- ?app_assoc|].
  destruct (io_fault env (OpWrite LOCAL_BUNDLES_PATH)).
  { destruct (io_torn env LOCAL_BUNDLES_PATH); simpl; by rewrite <- ?app_assoc. }
  simpl. rewrite scan_mtimes_call. unfold record. simpl. rewrite length_map.
  destruct (_scan_mtimes Path _ (split_roots env roots_str)).1;
    [|by rewrite <- ?app_assoc].
  destruct (io_fault env (OpWrite _META_PATH)).
  { destruct (io_torn env _META_PATH); simpl; by rewrite <- ?app_assoc. }
  simpl. by rewrite <- ?app_assoc.
Qed.

Lemma write_local_bundles_force w :
  write_local_bundles Path env true w = regenerate Path env (bndl_roots env) w.
Proof. reflexivity. Qed.

Lemma write_local_bundles_check w :
  write_local_bundles Path env false w =
  match _is_stale Path env (bndl_roots env) w with
  | (Ok false, w') => (Ok LOCAL_BUNDLES_PATH, record [EvLog UpToDate] w')
  | (Ok true, w') => regenerate Path env (bndl_roots env) w'
  | (Raise e, w') => (Raise e, w')
  end.
Proof.
  unfold write_local_bundles, mbind, M_bind, fmap, M_fmap. simpl.
  destruct (_is_stale Path env (bndl_roots env) w) as [[[]|e] w']; done.
Qed.

End Runs.

Lemma scans_app evs evs' : scans (evs ++ evs')%list = (scans evs + scans evs')%nat.
Proof. unfold scans. by rewrite List.filter_app, length_app. Qed.

Lemma writes_app evs evs' : writes (evs ++ evs')%list = (writes evs ++ writes evs')%list.
Proof. apply List.filter_app. Qed.

Lemma checks_app evs evs' : checks (evs ++ evs')%list = (checks evs ++ checks evs')%list.
Proof. apply List.filter_app. Qed.

Lemma strings_JStr l : strings (List.map JStr l) = Some l.
Proof. induction l as [|s l IH]; simpl; [done|by rewrite IH]. Qed.

(** The scan's debug records are neither scans, writes nor checks. *)
Lemma scan_log_filter Path env (f : event → bool) t roots_str :
  (∀ r, f (EvLog r) = false) → List.filter f (scan_log Path env t roots_str) = [].
Proof.
  intros Hf. unfold scan_log.
  induction (_scan_mtimes _ _ _).2 as [|? ? IH]; simpl; [done|by rewrite Hf].
Qed.

(** Counting over a trace built from explicit events and scan logs. *)
Ltac count_events :=
  unfold scans, writes, checks; simpl;
  rewrite ?List.filter_app, ?scan_log_filter by done; simpl;
  rewrite ?List.filter_app, ?scan_log_filter by done; done.

Section Quiet.

Variable Path : string → string.
Variable env : Env.

(** [_is_stale] only looks: it leaves the file system alone and neither
    scans nor writes. *)
Lemma is_stale_frame roots_str w :
  ∃ evs, (_is_stale Path env roots_str w).2 = record evs w
         ∧ scans evs = 0%nat ∧ writes evs = [].
Proof.
  rewrite is_stale_run.
  destruct (local_bundles w); [|by eexists].
  destruct (meta_file w) as [[e|meta]|]; [by eexists| |by eexists].
  destruct meta; try by eexists.
  destruct (ne_str _ _); [by eexists|].
  destruct (_scan_mtimes Path (tree w) (split_roots env roots_str)).1.
  - destruct (mtimes_eq _ _); eexists; (split; [reflexivity|]);
      split; count_events.
  - eexists; (split; [reflexivity|]); split; count_events.
Qed.

(** Its answer depends on the file system only, not on the trace. *)
Lemma is_stale_record roots_str evs w :
  (_is_stale Path env roots_str (record evs w)).1
  = (_is_stale Path env roots_str w).1.
Proof.
  rewrite !is_stale_run. simpl.
  destruct (local_bundles w); [|done].
  destruct (meta_file w) as [[e|meta]|]; [done| |done].
  destruct meta; try done.
  destruct (ne_str _ _); [done|].
  destruct (_scan_mtimes Path (tree w) (split_roots env roots_str)).1; [|done].
  by destruct (mtimes_eq _ _).
Qed.

End Quiet.

(** It reads the environment through [os.name] only. *)
Lemma is_stale_env Path env env' roots_str :
  os_name env' = os_name env →
  _is_stale Path env' roots_str = _is_stale Path env roots_str.
Proof.
  intros Hos. unfold _is_stale, split_roots, sep. by rewrite Hos.
Qed.

Lemma split_roots_env env env' roots_str :
  os_name env' = os_name env → split_roots env' roots_str = split_roots env roots_str.
Proof. intros Hos. unfold split_roots, sep. by rewrite Hos. Qed.

Lemma bndl_roots_env env env' :
  environ env' = environ env → bndl_roots env' = bndl_roots env.
Proof. unfold bndl_roots. by intros ->. Qed.

(** ** The cache manager *)

Section CacheManager.

Variable Path : string → string.

(** The verdict on a pair that holds the Metadata File of a regeneration,
    for any later roots string and tree. *)
Lemma is_stale_on_regenerated env' roots_str roots_str' m c t evs w0 :
  (_is_stale Path env' roots_str'
     (record evs
        (set_file _META_PATH (Json (meta_doc roots_str m))
           (set_file LOCAL_BUNDLES_PATH c (at_tree t w0))))).1
  = if String.eqb roots_str roots_str' then
      match (_scan_mtimes Path t (split_roots env' roots_str')).1 with
      | Ok m' => Ok (bool_decide (m' ≠ m))
      | Raise e => Raise e
      end
    else Ok true.
Proof.
  rewrite is_stale_record, is_stale_run. destruct w0 as [t0 b mf xe tr].
  cbn [set_file at_tree local_bundles meta_file tree].
  unfold meta_doc, stored.
  rewrite lookup_insert_eq, lookup_insert_ne by done.
  rewrite lookup_singleton_eq. cbn [ne_str].
  destruct (String.eqb roots_str roots_str'); cbn [negb]; [|done].
  destruct (_scan_mtimes Path t (split_roots env' roots_str')).1 as [m'|]; [|done].
  rewrite <- mtimes_eq_json_decide. by destruct (mtimes_eq _ _).
Qed.

(** A regeneration that returns: its scan returned a fingerprint, both
    files hold what was written, and the tree is the one the last write
    left. *)
Lemma regenerate_ok env roots_str w p w' :
  regenerate Path env roots_str w = (Ok p, w') →
  p = LOCAL_BUNDLES_PATH
  ∧ ∃ m evs,
      (_scan_mtimes Path (tree_at_scan env w) (split_roots env roots_str)).1 = Ok m
      ∧ w' = record evs
               (set_file _META_PATH (Json (meta_doc roots_str m))
                  (set_file LOCAL_BUNDLES_PATH (Json (new_bundles env))
                     (at_tree (tree_after env w) w)))
      ∧ scans evs = 1%nat ∧ checks evs = [].
Proof.
  rewrite regenerate_run. cbv zeta.
  destruct (io_fault env OpMkdir); [done|].
  destruct (io_fault env (OpWrite LOCAL_BUNDLES_PATH)); [done|].
  destruct (_scan_mtimes Path (tree_at_scan env w) (split_roots env roots_str)).1
    as [m|] eqn:Hscan; [|done].
  destruct (io_fault env (OpWrite _META_PATH)); [done|].
  intros [= <- <-]. split; [done|]. exists m. eexists.
  split; [done|]. split.
  { reflexivity. }
  split; count_events.
Qed.

Lemma regenerate_scans_once env roots_str w r w' :
  regenerate Path env roots_str w = (r, w') →
  ∃ evs, trace w' = (trace w ++ evs)%list ∧ scans evs = 1%nat ∧ checks evs = [].
Proof.
  rewrite regenerate_run. cbv zeta.
  destruct (io_fault env OpMkdir).
  { intros [= <- <-]. by eexists. }
  destruct (io_fault env (OpWrite LOCAL_BUNDLES_PATH)).
  { intros [= <- <-]. destruct (io_torn env LOCAL_BUNDLES_PATH); by eexists. }
  destruct (_scan_mtimes Path (tree_at_scan env w) (split_roots env roots_str)).1.
  2: { intros [= <- <-]. eexists. split; [destruct w; reflexivity|].
       split; count_events. }
  destruct (io_fault env (OpWrite _META_PATH)); intros [= <- <-];
    [destruct (io_torn env _META_PATH)|];
    (eexists; split; [destruct w; reflexivity|]); split; count_events.
Qed.

(** The up-to-date branch of [write_local_bundles]: the state it returns
    is the one it started in with more trace. *)
Lemma up_to_date_call env w :
  (_is_stale Path env (bndl_roots env) w).1 = Ok false →
  ∃ evs,
    write_local_bundles Path env false w
    = (Ok LOCAL_BUNDLES_PATH, record evs w)
    ∧ writes evs = [] ∧ scans evs = 0%nat.
Proof.
  intros Hfresh. rewrite write_local_bundles_check.
  destruct (is_stale_frame Path env (bndl_roots env) w) as (evs & Hw & Hs & Hwr).
  destruct (_is_stale Path env (bndl_roots env) w) as [r w'].
  simpl in *. subst r w'.
  exists (evs ++ [EvLog UpToDate])%list.
  rewrite record_record, writes_app, scans_app, Hs, Hwr. done.
Qed.

(** The state after a call that regenerated and returned. *)
Lemma regenerated_state env force w p w1 :
  write_local_bundles Path env force w = (Ok p, w1) →
  force = true ∨ (_is_stale Path env (bndl_roots env) w).1 = Ok true →
  p = LOCAL_BUNDLES_PATH
  ∧ ∃ m evs,
      (_scan_mtimes Path (tree_at_scan env w) (split_roots env (bndl_roots env))).1
      = Ok m
      ∧ w1 = record evs
               (set_file _META_PATH (Json (meta_doc (bndl_roots env) m))
                  (set_file LOCAL_BUNDLES_PATH (Json (new_bundles env))
                     (at_tree (tree_after env w) w)))
      ∧ scans evs = 1%nat.
Proof.
  intros Hrun Hregen. destruct force.
  - rewrite write_local_bundles_force in Hrun.
    apply regenerate_ok in Hrun as (-> & m & evs & Hm & -> & Hs & _).
    split; [done|]. by exists m, evs.
  - destruct Hregen as [|Hstale]; [done|].
    rewrite write_local_bundles_check in Hrun.
    destruct (is_stale_frame Path env (bndl_roots env) w) as (evs0 & Hw & Hs0 & _).
    destruct (_is_stale Path env (bndl_roots env) w) as [[[]|] w0];
      simpl in Hstale, Hw; try done. subst w0.
    apply regenerate_ok in Hrun as (-> & m & evs & Hm & -> & Hs & _).
    split; [done|]. exists m, (evs0 ++ evs)%list.
    split; [done|]. split; [|by rewrite scans_app, Hs0, Hs].
    by rewrite <- record_record, <- !set_file_record, <- at_tree_record.
Qed.

(** A call that returns leaves a pair the staleness check finds fresh,
    when writing the Metadata File did not move the fingerprint, and has
    scanned at most once. *)
Lemma returned_cache_is_fresh env w p w1 :
  write_local_bundles Path env false w = (Ok p, w1) →
  metadata_write_untracked Path env w →
  p = LOCAL_BUNDLES_PATH
  ∧ (_is_stale Path env (bndl_roots env) w1).1 = Ok false
  ∧ ∃ evs, trace w1 = (trace w ++ evs)%list ∧ (scans evs ≤ 1)%nat.
Proof.
  intros Hrun Hquiet.
  destruct (_is_stale Path env (bndl_roots env) w) as [r w0] eqn:E.
  destruct r as [[]|e].
  - assert ((_is_stale Path env (bndl_roots env) w).1 = Ok true) as Hstale
      by by rewrite E.
    destruct (regenerated_state env false w p w1 Hrun (or_intror Hstale))
      as (-> & m & evs & Hm & -> & Hs).
    split; [done|]. split.
    + rewrite is_stale_on_regenerated, String.eqb_refl.
      unfold metadata_write_untracked in Hquiet. rewrite Hquiet, Hm.
      f_equal. apply bool_decide_eq_false. by intros ?.
    + exists evs. split; [by destruct w|lia].
  - rewrite write_local_bundles_check, E in Hrun. injection Hrun as <- <-.
    destruct (is_stale_frame Path env (bndl_roots env) w) as (evs & Hw & Hs & _).
    rewrite E in Hw. simpl in Hw. subst w0.
    split; [done|]. split.
    + by rewrite !is_stale_record, E.
    + exists (evs ++ [EvLog UpToDate])%list. split.
      * simpl. by rewrite app_assoc.
      * rewrite scans_app, Hs. unfold scans. simpl. lia.
  - by rewrite write_local_bundles_check, E in Hrun.
Qed.

End CacheManager.

(** ** Claims about the cache manager *)

Section CacheClaims.

Variable Path : string → string.

(** C6. When [force] is false and the staleness check answers fresh,
    [write_local_bundles] returns the Result File path, leaves both cache
    files as they are, makes no write call and does not call the scan. *)
Theorem fresh_cache_is_left_alone env w :
  (_is_stale Path env (bndl_roots env) w).1 = Ok false →
  ∃ w' evs,
    write_local_bundles Path env false w = (Ok LOCAL_BUNDLES_PATH, w')
    ∧ local_bundles w' = local_bundles w
    ∧ meta_file w' = meta_file w
    ∧ trace w' = (trace w ++ evs)%list
    ∧ writes evs = [] ∧ scans evs = 0%nat.
Proof.
  intros Hfresh.
  destruct (up_to_date_call Path env w Hfresh) as (evs & Hrun & Hwr & Hs).
  exists (record evs w), evs. rewrite Hrun. done.
Qed.

(** C2, amended. Two calls in a row with [force] false, the second on the
    file system the first left and with the same roots string: when the
    first returns, and writing the Metadata File did not change what the
    fingerprint of the configured roots records, the second returns the
    same path as a pure cache hit, with no write call and no scan, so the
    scan runs at most once over the two calls. *)
Theorem freshness_idempotent env env' w p w1 :
  write_local_bundles Path env false w = (Ok p, w1) →
  environ env' = environ env → os_name env' = os_name env →
  metadata_write_untracked Path env w →
  ∃ evs1 evs2 w2,
    trace w1 = (trace w ++ evs1)%list
    ∧ write_local_bundles Path env' false w1 = (Ok p, w2)
    ∧ tree w2 = tree w1
    ∧ local_bundles w2 = local_bundles w1
    ∧ meta_file w2 = meta_file w1
    ∧ trace w2 = (trace w1 ++ evs2)%list
    ∧ writes evs2 = [] ∧ scans evs2 = 0%nat
    ∧ (scans (evs1 ++ evs2) ≤ 1)%nat.
Proof.
  intros Hfirst Henv Hos Hquiet.
  apply returned_cache_is_fresh in Hfirst as (-> & Hfresh & evs1 & Htr & Hs1);
    [|done].
  rewrite <- (bndl_roots_env env env' Henv), <- (is_stale_env Path env env') in Hfresh
    by done.
  apply up_to_date_call in Hfresh as (evs2 & Hrun & Hwr & Hs2).
  exists evs1, evs2, (record evs2 w1).
  rewrite scans_app, Hs2, Hrun. repeat split; try done. lia.
Qed.

(** C7. After a regeneration that returns, the Result File holds an object
    whose ["bundles"] member reads back as the list of [str(b.root)] of the
    bundles the scan returned, in the scan's order, nothing added, dropped
    or merged. *)
Theorem bundles_round_trip env force w p w' :
  write_local_bundles Path env force w = (Ok p, w') →
  force = true ∨ (_is_stale Path env (bndl_roots env) w).1 = Ok true →
  local_bundles w' = Some (Json (bundles_doc (List.map root (discover_bundles_auto env))))
  ∧ read_bundles w' = Some (List.map root (discover_bundles_auto env)).
Proof.
  intros Hrun Hregen.
  destruct (regenerated_state Path env force w p w' Hrun Hregen)
    as (_ & m & evs & _ & -> & _).
  split; [done|]. unfold read_bundles. cbn [record set_file local_bundles].
  unfold new_bundles, bundles_doc. rewrite lookup_singleton_eq. apply strings_JStr.
Qed.

(** C9. A Metadata File that is an object without the [depth2_mtimes] key
    and with the matching [bndl_roots]: the staleness check compares the
    fingerprint the scan returns with the empty dict, so it answers stale
    exactly when that fingerprint is not empty; when it is empty the cache
    is fresh and [write_local_bundles] neither scans nor writes. *)
Theorem missing_depth2_mtimes_is_empty env w c d m :
  local_bundles w = Some c →
  meta_file w = Some (Json (JObj d)) →
  d !! "bndl_roots" = Some (JStr (bndl_roots env)) →
  d !! "depth2_mtimes" = None →
  (_scan_mtimes Path (tree w) (split_roots env (bndl_roots env))).1 = Ok m →
  (_is_stale Path env (bndl_roots env) w).1 = Ok (bool_decide (m ≠ ∅))
  ∧ (m = ∅ →
     ∃ w' evs,
       write_local_bundles Path env false w = (Ok LOCAL_BUNDLES_PATH, w')
       ∧ local_bundles w' = local_bundles w
       ∧ meta_file w' = meta_file w
       ∧ trace w' = (trace w ++ evs)%list
       ∧ writes evs = [] ∧ scans evs = 0%nat).
Proof.
  intros Hb Hm Hroots Hkey Hscan.
  assert ((_is_stale Path env (bndl_roots env) w).1 = Ok (bool_decide (m ≠ ∅)))
    as Hstale.
  { rewrite is_stale_run, Hb, Hm. unfold stored. rewrite Hroots, Hkey.
    cbn [ne_str]. rewrite String.eqb_refl. cbn [negb]. rewrite Hscan.
    rewrite <- mtimes_eq_empty. by destruct (mtimes_eq _ _). }
  split; [done|]. intros ->.
  assert ((_is_stale Path env (bndl_roots env) w).1 = Ok false) as Hfresh.
  { rewrite Hstale. by rewrite bool_decide_eq_false_2 by (by intros ?). }
  destruct (up_to_date_call Path env w Hfresh) as (evs & Hrun & Hwr & Hs).
  exists (record evs w), evs. rewrite Hrun. done.
Qed.

(** X25.  What a call with [force] true does, whatever the cache files
    hold: it calls the scan exactly once and makes none of the calls of the
    staleness check.  When it returns, both files hold what this run wrote.
    It fails to return when [mkdir] or a [write_text] fails, and also when
    a configured root cannot be examined: the Result File is then written
    and the Metadata File is not. *)
Theorem forced_call env w :
  ∃ r w' evs,
    write_local_bundles Path env true w = (r, w')
    ∧ trace w' = (trace w ++ evs)%list
    ∧ scans evs = 1%nat
    ∧ checks evs = []
    ∧ match r with
      | Ok p =>
          p = LOCAL_BUNDLES_PATH
          ∧ local_bundles w' = Some (Json (new_bundles env))
          ∧ meta_file w' = Some (Json (new_meta Path env w (bndl_roots env)))
      | Raise e =>
          (∃ op oe, io_fault env op = Some oe ∧ e = OSErr oe)
          ∨ (∃ oe,
               examine_error Path (tree_at_scan env w)
                 (split_roots env (bndl_roots env)) = Some oe
               ∧ e = OSErr oe
               ∧ local_bundles w' = Some (Json (new_bundles env))
               ∧ meta_file w' = meta_file w)
      end.
Proof.
  rewrite write_local_bundles_force.
  destruct (regenerate Path env (bndl_roots env) w) as [r w'] eqn:E.
  destruct (regenerate_scans_once _ _ _ _ _ _ E) as (evs & Htr & Hs & Hc).
  exists r, w', evs. repeat split; try done.
  destruct r as [p|e].
  - apply regenerate_ok in E as (-> & m & evs' & Hm & -> & _).
    split; [done|]. split; [done|].
    cbn [record set_file meta_file]. unfold new_meta, fingerprint. by rewrite Hm.
  - rewrite regenerate_run in E. cbv zeta in E.
    destruct (io_fault env OpMkdir) eqn:E1.
    { injection E as <- <-. left. eauto. }
    destruct (io_fault env (OpWrite LOCAL_BUNDLES_PATH)) eqn:E2.
    { injection E as <- <-. left. eauto. }
    destruct (_scan_mtimes Path (tree_at_scan env w)
                (split_roots env (bndl_roots env))).1 as [m|e'] eqn:Hscan.
    + destruct (io_fault env (OpWrite _META_PATH)) eqn:E3; [|done].
      injection E as <- <-. left. eauto.
    + injection E as <- <-. right.
      apply scan_raises in Hscan as (oe & Hoe & ->). exists oe.
      by destruct w.
Qed.

End CacheClaims.

(** ** The staleness decision, in the specification's words *)

Section Staleness.

Variable Path : string → string.
Variable env : Env.

Lemma filter_strip (l : list string) :
  List.filter PyStr.truthy (List.map PyStr.strip l)
  = List.map PyStr.strip (List.filter (λ r, PyStr.truthy (PyStr.strip r)) l).
Proof.
  induction l as [|r l IH]; simpl; [done|].
  destruct (PyStr.truthy (PyStr.strip r)); simpl; by rewrite IH.
Qed.

Lemma segments_split_roots roots_str : segments env roots_str = split_roots env roots_str.
Proof. apply filter_strip. Qed.

(** X20.  On every state in which [exists] answers for both cache paths,
    every configured root can be examined and the Metadata File, if it
    parses, is an object, [_is_stale] returns the specification's
    disjunction. *)
Theorem is_stale_decision roots_str w :
  meta_is_object w →
  examinable w →
  examine_error Path (tree w) (split_roots env roots_str) = None →
  (_is_stale Path env roots_str w).1 = Ok (stale_by_spec Path env roots_str w).
Proof.
  intros Hobj Hex Hroots. rewrite is_stale_run. unfold stale_by_spec.
  destruct (local_bundles w) as [c|] eqn:Hb.
  2: { by rewrite (Hex LOCAL_BUNDLES_PATH Hb). }
  destruct (meta_file w) as [[e|meta]|] eqn:Hm; [done| |].
  2: { by rewrite (Hex _META_PATH Hm). }
  destruct (Hobj c meta Hb Hm) as [d ->].
  unfold stored, field. rewrite segments_split_roots.
  destruct (d !! "bndl_roots") as [[]|]; try done.
  cbn [ne_str]. destruct (String.eqb _ _); [|done]. cbn [negb].
  fold (stored d "depth2_mtimes" (JObj ∅)).
  rewrite scan_mtimes_run, Hroots. cbn [fst].
  by destruct (mtimes_eq _ _).
Qed.

(** X21.  The checks are made in the order of the disjunction: each case
    stops at the first one that answers, or raises. *)
Theorem is_stale_order roots_str w :
  checks (trace (_is_stale Path env roots_str
                   {| tree := tree w;
                      local_bundles := local_bundles w;
                      meta_file := meta_file w;
                      exists_error := exists_error w;
                      trace := [] |}).2)
  = match local_bundles w, meta_file w with
    | None, _ => [EvExists LOCAL_BUNDLES_PATH]
    | Some _, None => [EvExists LOCAL_BUNDLES_PATH; EvExists _META_PATH]
    | Some _, Some _ =>
        [EvExists LOCAL_BUNDLES_PATH; EvExists _META_PATH; EvReadText _META_PATH]
    end.
Proof.
  rewrite is_stale_run. cbn [local_bundles meta_file tree].
  destruct (local_bundles w); [|done].
  destruct (meta_file w) as [[e|meta]|]; [done| |done].
  destruct meta; try done.
  destruct (ne_str _ _); [done|].
  destruct (_scan_mtimes Path (tree w) (split_roots env roots_str)).1;
    [destruct (mtimes_eq _ _)|]; cbn [snd record trace];
    unfold checks; simpl; rewrite ?List.filter_app, scan_log_filter by done; done.
Qed.

End Staleness.

(** ** Claims about the fingerprint *)

(** C3, amended.  When every call the scan makes answers ([is_dir] on each
    root; for a root that is a directory its [stat], its listing, [is_dir]
    on each of its entries and the [stat] of each entry that is a
    directory), the fingerprint maps exactly each root that is a directory,
    and each entry of such a root that is a directory, to its modification
    time.  Roots that are not directories and entries that are not
    directories contribute nothing. *)
Theorem fingerprint_exact_without_failure Path fs roots :
  examine_error Path fs roots = None →
  (∀ r, r ∈ roots → is_dir fs (Path r) = inr true → root_error fs (Path r) = None) →
  fingerprint_exact Path fs roots.
Proof.
  intros Hexam Hok. unfold fingerprint_exact. rewrite scan_mtimes_run, Hexam.
  eexists. split; [reflexivity|]. intros k t.
  rewrite scan_lookup. unfold tracked.
  split; intros (r & Hr & Hd & H); exists r; (split; [done|]); (split; [done|]).
  - by apply (root_entries_complete fs _ _ _ (Hok r Hr Hd)).
  - by apply (root_entries_complete fs _ _ _ (Hok r Hr Hd)).
Qed.

(** C10.  Whenever the scan returns a fingerprint: the fingerprint of a
    root list with repeated entries is that of the list without them, a
    permutation of the roots gives the same fingerprint, and the comparison
    with a stored fingerprint holds exactly when the two maps have the same
    value, or none, at every key. *)
Theorem fingerprint_is_a_finite_map Path fs :
  (∀ roots,
     returned (_scan_mtimes Path fs (remove_dups roots)).1
     = returned (_scan_mtimes Path fs roots).1)
  ∧ (∀ roots roots', roots ≡ₚ roots' →
       returned (_scan_mtimes Path fs roots).1
       = returned (_scan_mtimes Path fs roots').1)
  ∧ (∀ m m' : Mtimes,
       mtimes_eq m (mtimes_json m') = true ↔ ∀ k, m !! k = m' !! k).
Proof.
  split; [|split].
  - intros roots. apply scan_same_roots. intros r. apply elem_of_remove_dups.
  - intros roots roots' Hperm. apply scan_same_roots. intros r. by rewrite Hperm.
  - intros m m'. rewrite mtimes_eq_json. split; [by intros ->|apply map_eq].
Qed.

(** ** Concrete runs *)

Example ex_split : split_roots ex_env "/r: /s::" = ["/r"; "/s"].
Proof. reflexivity. Qed.

Example ex_fingerprint :
  (_scan_mtimes plain_path ex_tree ["/r"; "/s"]).1
  = Ok (<["/r" := 5]> (<["/r/a" := 7]> ∅)).
Proof. vm_compute. reflexivity. Qed.

Example ex_first_call_scans :
  scans (trace ex_cached) = 1%nat
  ∧ read_bundles ex_cached = Some ["x"; "y"].
Proof. vm_compute. done. Qed.

(** Forcing on the fresh cache scans again and writes both files again. *)
Example ex_force_on_fresh :
  (_is_stale plain_path ex_env (bndl_roots ex_env) ex_cached).1 = Ok false
  ∧ scans (trace (write_local_bundles plain_path ex_env true ex_cached).2) = 2%nat
  ∧ List.length (writes (trace (write_local_bundles plain_path ex_env true ex_cached).2))
    = 6%nat.
Proof. vm_compute. done. Qed.

(** A scan that returns a bundle twice is written with both. *)
Example ex_no_deduplication :
  read_bundles
    (write_local_bundles plain_path
       {| os_name := "nt"; environ := ∅;
          discover_bundles_auto := [ {| root := "y" |}; {| root := "x" |};
                                     {| root := "y" |} ];
          io_fault := λ _, None; io_torn := λ _, false;
          mkdir_tree := λ t, t; write_tree := λ _ _ t, t |}
       false ex_no_cache).2
  = Some ["y"; "x"; "y"].
Proof. vm_compute. reflexivity. Qed.

(** A race: [/r/c1] vanishes before its [stat], and [/r/c2], listed after
    it, is not recorded. *)
Example ex_race_drops_later_children :
  _scan_mtimes plain_path ex_tree_race ["/r"]
  = (Ok {[ "/r" := 5 ]}, [("/r", FileNotFoundError)]).
Proof. vm_compute. reflexivity. Qed.

(** An entry that [is_dir] cannot examine ends the loop of its root in the
    same way: the exception is logged and [/r/c2] is not recorded. *)
Example ex_link_drops_later_children :
  _scan_mtimes plain_path ex_tree_link ["/r"]
  = (Ok {[ "/r" := 5 ]}, [("/r", PermissionError)]).
Proof. vm_compute. reflexivity. Qed.

(** A write that fails once the file is open leaves a Result File that
    does not parse, next to the Metadata File of the run before. *)
Example ex_torn_write :
  let env :=
    {| os_name := "posix"; environ := {[ "ENVOY_BNDL_ROOTS" := "/r: /s" ]};
       discover_bundles_auto := [];
       io_fault := λ op, match op with
                         | OpWrite LOCAL_BUNDLES_PATH => Some (OtherOSError 28)
                         | _ => None
                         end;
       io_torn := λ _, true;
       mkdir_tree := λ t, t; write_tree := λ _ _ t, t |} in
  let w' := (write_local_bundles plain_path env true ex_cached).2 in
  (write_local_bundles plain_path env true ex_cached).1 = Raise (OSErr (OtherOSError 28))
  ∧ local_bundles w' = Some (Unreadable JSONDecodeError)
  ∧ meta_file w' = meta_file ex_cached.
Proof. vm_compute. done. Qed.

(** Witness of [fingerprint_exact_without_failure]. *)
Lemma fingerprint_exact_witness :
  fingerprint_exact plain_path ex_tree ["/r"; "/s"].
Proof.
  apply fingerprint_exact_without_failure; [reflexivity|].
  intros r Hr Hd.
  apply elem_of_cons in Hr as [->|Hr]; [reflexivity|].
  apply elem_of_cons in Hr as [->|Hr]; [discriminate Hd|].
  by apply elem_of_nil in Hr.
Defined.

(** C3 as stated fails: [/r/a] is a directory directly under the root
    [/r], with modification time 7, and the fingerprint does not hold it,
    because [/r] may not be listed. *)
Lemma fingerprint_exact_fails_on_unlistable :
  tracked plain_path ex_tree_unlistable ["/r"] "/r/a" 7
  ∧ (_scan_mtimes plain_path ex_tree_unlistable ["/r"]).1 = Ok {[ "/r" := 5 ]}
  ∧ ¬ fingerprint_exact plain_path ex_tree_unlistable ["/r"].
Proof.
  assert (tracked plain_path ex_tree_unlistable ["/r"] "/r/a" 7) as Htracked.
  { exists "/r". split; [apply elem_of_cons; by left|]. split; [reflexivity|].
    right. split; [|done]. apply elem_of_cons. by left. }
  split; [done|]. split; [vm_compute; reflexivity|].
  intros (m & Hm & Hexact).
  apply Hexact in Htracked. vm_compute in Hm. injection Hm as <-.
  vm_compute in Htracked. discriminate Htracked.
Qed.

(** C4, at a root list whose second root lies below a directory that may
    not be searched: [is_dir] on it raises before the [try] is entered, and
    [_scan_mtimes] raises the [PermissionError] instead of logging it and
    going on. *)
Theorem scan_mtimes_raises_on_locked_root :
  _scan_mtimes plain_path ex_tree_locked ["/r"; "/locked/repos"]
  = (Raise (OSErr PermissionError), [])
  ∧ is_dir ex_tree_locked (plain_path "/locked/repos") = inl PermissionError.
Proof. split; vm_compute; reflexivity. Qed.

(** C5, with the same root configured: the forced call scans once, creates
    the cache directory, writes the Result File, and then raises the
    [PermissionError] of the fingerprint scan, although no [mkdir] or
    [write_text] failed.  The Metadata File is not written: it stays the one
    of the earlier run. *)
Theorem forced_call_stops_before_metadata :
  ∃ w',
    write_local_bundles plain_path ex_env_locked true ex_old_cache
    = (Raise (OSErr PermissionError), w')
    ∧ scans (trace w') = 1%nat
    ∧ writes (trace w')
      = [EvMkdir; EvWriteText LOCAL_BUNDLES_PATH (bundles_doc ["x"; "y"])]
    ∧ local_bundles w' = Some (Json (bundles_doc ["x"; "y"]))
    ∧ meta_file w' = meta_file ex_old_cache
    ∧ ∀ op, io_fault ex_env_locked op = None.
Proof. eexists. split; [vm_compute; reflexivity|]. vm_compute. done. Qed.

(** Witness of [freshness_idempotent]: a first call on no cache, with a
    cache directory away from the roots, then a second one that could
    neither scan usefully nor write. *)
Lemma freshness_idempotent_witness :
  ∃ evs1 evs2 w2,
    trace ex_cached = (trace ex_no_cache ++ evs1)%list
    ∧ write_local_bundles plain_path ex_env_readonly false ex_cached
      = (Ok LOCAL_BUNDLES_PATH, w2)
    ∧ tree w2 = tree ex_cached
    ∧ local_bundles w2 = local_bundles ex_cached
    ∧ meta_file w2 = meta_file ex_cached
    ∧ trace w2 = (trace ex_cached ++ evs2)%list
    ∧ writes evs2 = [] ∧ scans evs2 = 0%nat
    ∧ (scans (evs1 ++ evs2) ≤ 1)%nat.
Proof.
  apply (freshness_idempotent plain_path ex_env ex_env_readonly ex_no_cache
           LOCAL_BUNDLES_PATH ex_cached);
    [vm_compute; reflexivity|reflexivity..].
Defined.

(** C2 as stated fails.  With the cache directory [/u/gt/envoy] inside the
    configured root [/u/gt], the first call stores the fingerprint it
    scanned before it created the Metadata File; creating that file moves
    the modification time of the cache directory, so the second call, on
    the file system the first one left, finds the layout changed, scans
    again and writes again.  And when the first call fails, here because
    the cache directory cannot be created, the second call scans again
    too. *)
Lemma second_call_rescans :
  ((write_local_bundles plain_path ex_env_home false ex_home).1
   = Ok LOCAL_BUNDLES_PATH
   ∧ meta_file ex_home_first
     = Some (Json (meta_doc "/u/gt" (<["/u/gt" := 10]> {[ "/u/gt/envoy" := 21 ]})))
   ∧ (_scan_mtimes plain_path (tree ex_home_first) ["/u/gt"]).1
     = Ok (<["/u/gt" := 10]> {[ "/u/gt/envoy" := 22 ]})
   ∧ (write_local_bundles plain_path ex_env_home false ex_home_first).1
     = Ok LOCAL_BUNDLES_PATH
   ∧ scans (trace ex_home_first) = 1%nat
   ∧ scans (trace ex_home_second) = 2%nat
   ∧ List.length (writes (trace ex_home_first)) = 3%nat
   ∧ List.length (writes (trace ex_home_second)) = 6%nat)
  ∧ ((write_local_bundles plain_path ex_env_readonly false ex_no_cache).1
     = Raise (OSErr PermissionError)
     ∧ scans (trace ex_failed_first) = 1%nat
     ∧ scans (trace (write_local_bundles plain_path ex_env_readonly false
                       ex_failed_first).2) = 2%nat).
Proof. vm_compute. repeat split; reflexivity. Qed.

(** Witness of [fresh_cache_is_left_alone], on the cache a first call left. *)
Lemma fresh_cache_witness :
  ∃ w' evs,
    write_local_bundles plain_path ex_env false ex_cached
    = (Ok LOCAL_BUNDLES_PATH, w')
    ∧ local_bundles w' = local_bundles ex_cached
    ∧ meta_file w' = meta_file ex_cached
    ∧ trace w' = (trace ex_cached ++ evs)%list
    ∧ writes evs = [] ∧ scans evs = 0%nat.
Proof.
  apply (fresh_cache_is_left_alone plain_path ex_env ex_cached).
  vm_compute. reflexivity.
Defined.

(** Witness of [bundles_round_trip]: the scan returns [x] then [y]. *)
Lemma bundles_round_trip_witness :
  read_bundles (write_local_bundles plain_path ex_env true ex_cached).2
  = Some ["x"; "y"].
Proof.
  refine (proj2 (bundles_round_trip plain_path ex_env true ex_cached
                   LOCAL_BUNDLES_PATH _ _ (or_introl eq_refl))).
  vm_compute. reflexivity.
Defined.

(** Witness of [missing_depth2_mtimes_is_empty]: the one root is missing,
    the fingerprint is empty and the cache is fresh. *)
Lemma missing_depth2_mtimes_witness :
  (_is_stale plain_path ex_env_no_root (bndl_roots ex_env_no_root) ex_short_meta).1
  = Ok (bool_decide ((∅ : Mtimes) ≠ ∅)).
Proof.
  refine (proj1 (missing_depth2_mtimes_is_empty plain_path ex_env_no_root
                   ex_short_meta (Json (bundles_doc []))
                   {[ "bndl_roots" := JStr "/missing" ]} ∅
                   eq_refl eq_refl _ _ _));
    vm_compute; reflexivity.
Defined.

(** C1, at a Metadata File that parses but is not an object: [_is_stale]
    raises [AttributeError] where the disjunction answers stale. *)
Theorem is_stale_raises_on_list_metadata :
  (_is_stale plain_path ex_env (bndl_roots ex_env) ex_list_meta).1
  = Raise AttributeError
  ∧ stale_by_spec plain_path ex_env (bndl_roots ex_env) ex_list_meta = true.
Proof. split; vm_compute; reflexivity. Qed.

(** C8, at the same input: the read-side failure reaches the caller of
    [write_local_bundles], which neither scans nor writes. *)
Theorem read_failure_reaches_caller :
  ∃ w',
    write_local_bundles plain_path ex_env false ex_list_meta
    = (Raise AttributeError, w')
    ∧ scans (trace w') = 0%nat ∧ writes (trace w') = []
    ∧ local_bundles w' = local_bundles ex_list_meta
    ∧ meta_file w' = meta_file ex_list_meta.
Proof. eexists. split; [vm_compute; reflexivity|]. vm_compute. done. Qed.

(** * Further properties of the code *)

(** ** The fingerprint *)

Section FingerprintMore.

Variable Path : string → string.
Variable fs : FileSystem.

(** X1.  Whatever fails during the scan, every key of the fingerprint it
    returns is a directory, either a root of the list or an entry of one,
    and its value is the time [stat] gives for it. *)
Theorem fingerprint_holds_only_directories roots m k t :
  (_scan_mtimes Path fs roots).1 = Ok m →
  m !! k = Some t →
  is_dir fs k = inr true
  ∧ stat_mtime fs k = inr t
  ∧ ∃ r, r ∈ roots ∧ is_dir fs (Path r) = inr true
         ∧ (k = Path r ∨ k ∈ children_of fs (Path r)).
Proof.
  intros [_ ->]%scan_returns Hk.
  apply scan_lookup in Hk as (r & Hr & Hd & Hin).
  pose proof (root_entries_stat fs _ _ _ Hin) as Hstat.
  destruct (root_entries_sound _ _ _ _ Hin) as [->|[Hc Hkd]].
  - split; [done|]. split; [done|]. exists r. auto.
  - split; [done|]. split; [done|]. exists r. auto.
Qed.

(** X2.  Scanning two root lists one after the other: when both scans
    return, the scan of the concatenation returns the union of the two
    fingerprints and the two logs in a row; when one of them raises, it
    raises the same exception, with the log made up to there. *)
Theorem scan_mtimes_app roots roots' :
  _scan_mtimes Path fs (roots ++ roots')
  = match _scan_mtimes Path fs roots, _scan_mtimes Path fs roots' with
    | (Ok m, logged), (Ok m', logged') => (Ok (m ∪ m'), (logged ++ logged')%list)
    | (Ok _, logged), (Raise e, logged') => (Raise e, (logged ++ logged')%list)
    | (Raise e, logged), _ => (Raise e, logged)
    end.
Proof.
  rewrite !scan_mtimes_run, examine_error_app, failures_app.
  destruct (examine_error Path fs roots) as [e|]; [by rewrite app_nil_r|].
  destruct (examine_error Path fs roots') as [e'|]; [done|].
  by rewrite store_entries_union.
Qed.

(** X3.  Roots for which [is_dir] answers [False] can be dropped from the
    list: the outcome of the scan and the log are the same without them. *)
Theorem scan_mtimes_skips_non_directories roots :
  _scan_mtimes Path fs roots
  = _scan_mtimes Path fs
      (List.filter (λ r, negb (not_directory fs (Path r))) roots).
Proof.
  unfold _scan_mtimes. generalize (∅ : Mtimes) ([] : list (string * OSError)).
  induction roots as [|r rs IH]; intros m logged; simpl; [done|].
  unfold not_directory.
  destruct (is_dir fs (Path r)) as [e|[]] eqn:Hd; simpl; rewrite ?Hd; [done| |apply IH].
  destruct (scan_root fs (Path r) m) as [m' [[]|[]]]; try done; apply IH.
Qed.

(** X24.  When [is_dir] answers for every root, [_scan_mtimes] returns.
    Each root whose [try] block raised is logged once, in order, and the
    scan goes on with the next root; what was stored for that root before
    the exception stays in the fingerprint: its own time once [stat]
    answered, and the directory entries listed before the failing one. *)
Theorem scan_mtimes_absorbs_failures roots :
  (∀ r, r ∈ roots → ∃ b, is_dir fs (Path r) = inr b) →
  ∃ m,
    _scan_mtimes Path fs roots = (Ok m, failures Path fs roots)
    ∧ (∀ k t, m !! k = Some t
              ↔ ∃ r, r ∈ roots ∧ is_dir fs (Path r) = inr true
                     ∧ (k, t) ∈ root_entries fs (Path r))
    ∧ (∀ r t, r ∈ roots → is_dir fs (Path r) = inr true →
              stat_mtime fs (Path r) = inr t → m !! Path r = Some t).
Proof.
  intros Hexam%examine_error_none. rewrite scan_mtimes_run, Hexam.
  eexists. split; [reflexivity|].
  split; [intros k t; apply scan_lookup|].
  intros r t Hr Hd Hs. apply scan_lookup. exists r.
  split; [done|]. split; [done|].
  unfold root_entries. rewrite Hs. apply elem_of_cons. by left.
Qed.


End FingerprintMore.

(** ** The cache a regeneration leaves *)

Section CacheMore.

Variable Path : string → string.

(** The verdict of a later check on what a call that regenerated and
    returned has left, the tree having become [t]. *)
Lemma is_stale_after_call env env' force w p w1 :
  write_local_bundles Path env force w = (Ok p, w1) →
  force = true ∨ (_is_stale Path env (bndl_roots env) w).1 = Ok true →
  ∃ m,
    (_scan_mtimes Path (tree_at_scan env w) (split_roots env (bndl_roots env))).1
    = Ok m
    ∧ meta_file w1 = Some (Json (meta_doc (bndl_roots env) m))
    ∧ ∀ t roots_str',
        (_is_stale Path env' roots_str' (at_tree t w1)).1
        = if String.eqb (bndl_roots env) roots_str' then
            match (_scan_mtimes Path t (split_roots env' roots_str')).1 with
            | Ok m' => Ok (bool_decide (m' ≠ m))
            | Raise e => Raise e
            end
          else Ok true.
Proof.
  intros Hrun Hregen.
  destruct (regenerated_state Path env force w p w1 Hrun Hregen)
    as (_ & m & evs & Hm & -> & _).
  exists m. split; [done|]. split; [done|]. intros t roots_str'.
  rewrite at_tree_record, !at_tree_set_file, at_tree_at_tree.
  apply is_stale_on_regenerated.
Qed.

(** X4.  After a call that regenerated and returned, the Metadata File
    holds the fingerprint the call scanned between its two writes.  A later
    check, on any tree, answers stale without scanning when it is given
    another roots string; given the same one, it raises when the scan
    raises and otherwise answers fresh exactly when the scan returns that
    fingerprint. *)
Theorem regenerated_cache_fresh_iff env env' force w p w1 :
  write_local_bundles Path env force w = (Ok p, w1) →
  force = true ∨ (_is_stale Path env (bndl_roots env) w).1 = Ok true →
  ∃ m,
    (_scan_mtimes Path (tree_at_scan env w) (split_roots env (bndl_roots env))).1
    = Ok m
    ∧ meta_file w1 = Some (Json (meta_doc (bndl_roots env) m))
    ∧ ∀ t roots_str',
        (_is_stale Path env' roots_str' (at_tree t w1)).1
        = if String.eqb (bndl_roots env) roots_str' then
            match (_scan_mtimes Path t (split_roots env' roots_str')).1 with
            | Ok m' => Ok (bool_decide (m' ≠ m))
            | Raise e => Raise e
            end
          else Ok true.
Proof. apply is_stale_after_call. Qed.

(** A later check with the same roots string, on a tree whose fingerprint
    differs from the stored one whenever the scan returns one. *)
Lemma later_check_not_fresh env force w p w1 m t :
  write_local_bundles Path env force w = (Ok p, w1) →
  force = true ∨ (_is_stale Path env (bndl_roots env) w).1 = Ok true →
  (_scan_mtimes Path (tree_at_scan env w) (split_roots env (bndl_roots env))).1
  = Ok m →
  (∀ m', (_scan_mtimes Path t (split_roots env (bndl_roots env))).1 = Ok m' →
         m' ≠ m) →
  (_is_stale Path env (bndl_roots env) (at_tree t w1)).1
  = match (_scan_mtimes Path t (split_roots env (bndl_roots env))).1 with
    | Ok _ => Ok true
    | Raise e => Raise e
    end.
Proof.
  intros Hrun Hregen Hm Hdiff.
  destruct (is_stale_after_call env env force w p w1 Hrun Hregen)
    as (m0 & Hm0 & _ & Hlater).
  assert (m0 = m) as -> by congruence.
  rewrite Hlater, String.eqb_refl.
  destruct (_scan_mtimes Path t (split_roots env (bndl_roots env))).1 as [m'|];
    [|done].
  by rewrite bool_decide_eq_true_2 by by apply Hdiff.
Qed.

(** X5.  After a call that regenerated and returned, if a key of the
    fingerprint it stored is no longer a directory, or [stat] no longer
    gives the stored time for it, the next check with the same roots string
    does not answer fresh: it answers stale when its scan returns, and
    raises when a root cannot be examined. *)
Theorem changed_directory_makes_stale env force w p w1 m k t tr' :
  write_local_bundles Path env force w = (Ok p, w1) →
  force = true ∨ (_is_stale Path env (bndl_roots env) w).1 = Ok true →
  (_scan_mtimes Path (tree_at_scan env w) (split_roots env (bndl_roots env))).1
  = Ok m →
  m !! k = Some t →
  is_dir tr' k ≠ inr true ∨ stat_mtime tr' k ≠ inr t →
  (_is_stale Path env (bndl_roots env) (at_tree tr' w1)).1
  = match (_scan_mtimes Path tr' (split_roots env (bndl_roots env))).1 with
    | Ok _ => Ok true
    | Raise e => Raise e
    end.
Proof.
  intros Hrun Hregen Hm Hkt Hchanged.
  apply (later_check_not_fresh env force w p w1 m tr' Hrun Hregen Hm).
  intros m' [_ ->]%scan_returns Heq. rewrite <- Heq in Hkt.
  apply scan_lookup in Hkt as (r & Hr & Hd & Hin).
  pose proof (root_entries_stat _ _ _ _ Hin) as Hstat.
  destruct Hchanged as [Hnd|Hns]; [|done].
  destruct (root_entries_sound _ _ _ _ Hin) as [->|[_ Hkd]]; congruence.
Qed.

(** X6.  After a call that regenerated and returned, a directory that was
    not in the stored fingerprint and now is an entry of a configured root,
    that root being read without failure, keeps the next check with the same
    roots string from answering fresh: it answers stale when its scan
    returns, and raises when a root cannot be examined. *)
Theorem new_subdirectory_makes_stale env force w p w1 m r c tr' :
  write_local_bundles Path env force w = (Ok p, w1) →
  force = true ∨ (_is_stale Path env (bndl_roots env) w).1 = Ok true →
  (_scan_mtimes Path (tree_at_scan env w) (split_roots env (bndl_roots env))).1
  = Ok m →
  m !! c = None →
  r ∈ split_roots env (bndl_roots env) →
  is_dir tr' (Path r) = inr true →
  root_error tr' (Path r) = None →
  c ∈ children_of tr' (Path r) →
  is_dir tr' c = inr true →
  (_is_stale Path env (bndl_roots env) (at_tree tr' w1)).1
  = match (_scan_mtimes Path tr' (split_roots env (bndl_roots env))).1 with
    | Ok _ => Ok true
    | Raise e => Raise e
    end.
Proof.
  intros Hrun Hregen Hm Hnew Hr Hd Herr Hc Hcd.
  apply (later_check_not_fresh env force w p w1 m tr' Hrun Hregen Hm).
  intros m' [_ ->]%scan_returns Heq. rewrite <- Heq in Hnew.
  assert (∃ t, stat_mtime tr' c = inr t) as [t Hstat].
  { unfold root_error, iterdir in Herr.
    destruct (stat_mtime tr' (Path r)); [done|].
    destruct (listing_error tr' (Path r)); [done|].
    by eapply children_error_stat. }
  assert (store ∅ (entries Path tr' (split_roots env (bndl_roots env))) !! c = Some t)
    as Hk; [|congruence].
  apply scan_lookup. exists r. split; [done|].
  split; [done|]. apply root_entries_complete; [done|]. by right.
Qed.

(** X7.  When the roots string has no usable segment (it is empty, or made
    of separators and whitespace), the fingerprint is empty whatever the
    disk holds: once a call has regenerated and returned, the check with
    that roots string answers fresh on every tree. *)
Theorem no_roots_never_stale_again env env' force w p w1 t :
  write_local_bundles Path env force w = (Ok p, w1) →
  force = true ∨ (_is_stale Path env (bndl_roots env) w).1 = Ok true →
  os_name env' = os_name env →
  split_roots env (bndl_roots env) = [] →
  (_is_stale Path env' (bndl_roots env) (at_tree t w1)).1 = Ok false.
Proof.
  intros Hrun Hregen Hos Hnone.
  destruct (is_stale_after_call env env' force w p w1 Hrun Hregen)
    as (m & Hm & _ & Hlater).
  rewrite Hlater, String.eqb_refl, (split_roots_env env env') by done.
  rewrite Hnone in *. cbn in Hm. injection Hm as <-. cbn.
  by rewrite bool_decide_eq_false_2 by (by intros ?).
Qed.

End CacheMore.

(** ** What a call leaves behind *)

Section CallMore.

Variable Path : string → string.

Lemma fresh_pair_exists env roots_str w :
  (_is_stale Path env roots_str w).1 = Ok false →
  is_Some (local_bundles w) ∧ is_Some (meta_file w).
Proof.
  rewrite is_stale_run.
  destruct (local_bundles w).
  2: { by destruct (exists_error w LOCAL_BUNDLES_PATH). }
  destruct (meta_file w) as [[e|meta]|]; [done|by eauto|].
  by destruct (exists_error w _META_PATH).
Qed.

(** A call that returns gives the Result File path and leaves both files
    in place. *)
Lemma returned_call env force w p w1 :
  write_local_bundles Path env force w = (Ok p, w1) →
  p = LOCAL_BUNDLES_PATH ∧ is_Some (local_bundles w1) ∧ is_Some (meta_file w1).
Proof.
  intros Hrun.
  assert (force = true ∨ (_is_stale Path env (bndl_roots env) w).1 = Ok true
          ∨ (force = false ∧ (_is_stale Path env (bndl_roots env) w).1 = Ok false))
    as [Hf|[Hs|[-> Hfresh]]].
  { destruct force; [by left|right].
    rewrite write_local_bundles_check in Hrun.
    destruct (_is_stale Path env (bndl_roots env) w) as [[[]|] w0]; simpl; auto.
    done. }
  - destruct (regenerated_state Path env force w p w1 Hrun (or_introl Hf))
      as (-> & m & evs & _ & -> & _). by eauto.
  - destruct (regenerated_state Path env force w p w1 Hrun (or_intror Hs))
      as (-> & m & evs & _ & -> & _). by eauto.
  - destruct (up_to_date_call Path env w Hfresh) as (evs & Hcall & _).
    rewrite Hcall in Hrun. injection Hrun as <- <-.
    split; [done|]. by destruct (fresh_pair_exists env _ w Hfresh).
Qed.

(** X8.  Whenever [write_local_bundles] returns, forced or not, it returns
    the Result File path and both cache files exist; and when writing the
    Metadata File did not change what the fingerprint records, the
    staleness check on what the call leaves answers fresh. *)
Theorem returned_call_leaves_fresh_pair env force w p w1 :
  write_local_bundles Path env force w = (Ok p, w1) →
  p = LOCAL_BUNDLES_PATH
  ∧ is_Some (local_bundles w1)
  ∧ is_Some (meta_file w1)
  ∧ (metadata_write_untracked Path env w →
     (_is_stale Path env (bndl_roots env) w1).1 = Ok false).
Proof.
  intros Hrun.
  destruct (returned_call env force w p w1 Hrun) as (-> & Hb & Hm).
  split; [done|]. split; [done|]. split; [done|]. intros Hquiet.
  destruct force.
  - destruct (is_stale_after_call Path env env true w _ w1 Hrun (or_introl eq_refl))
      as (m & Hscan & _ & Hlater).
    specialize (Hlater (tree w1) (bndl_roots env)).
    assert (at_tree (tree w1) w1 = w1) as Hsame by by destruct w1.
    rewrite Hsame, String.eqb_refl in Hlater. rewrite Hlater.
    destruct (regenerated_state Path env true w _ w1 Hrun (or_introl eq_refl))
      as (_ & m0 & evs & _ & -> & _).
    cbn [record set_file at_tree tree].
    unfold metadata_write_untracked in Hquiet. rewrite Hquiet, Hscan.
    by rewrite bool_decide_eq_false_2 by (by intros ?).
  - by destruct (returned_cache_is_fresh Path env w _ w1 Hrun Hquiet) as (_ & ? & _).
Qed.

Lemma regenerate_writes env w r w' :
  regenerate Path env (bndl_roots env) w = (r, w') →
  ∃ evs,
    trace w' = (trace w ++ evs)%list
    ∧ scans evs = 1%nat
    ∧ writes evs `prefix_of` write_plan Path env w
    ∧ (∀ p, r = Ok p → writes evs = write_plan Path env w).
Proof.
  rewrite regenerate_run. cbv zeta. unfold write_plan, new_meta, fingerprint.
  destruct (io_fault env OpMkdir).
  { intros [= <- <-]. eexists. split; [reflexivity|]. split; [done|].
    split; [by eexists|done]. }
  destruct (io_fault env (OpWrite LOCAL_BUNDLES_PATH)).
  { intros [= <- <-].
    destruct (io_torn env LOCAL_BUNDLES_PATH);
      (eexists; split; [reflexivity|]); (split; [done|]);
      (split; [by eexists|done]). }
  destruct (_scan_mtimes Path (tree_at_scan env w)
              (split_roots env (bndl_roots env))).1.
  2: { intros [= <- <-]. eexists. split; [destruct w; reflexivity|].
       unfold writes, scans; simpl;
         rewrite ?List.filter_app, ?scan_log_filter by done; simpl.
       split; [done|]. split; [by eexists|done]. }
  destruct (io_fault env (OpWrite _META_PATH)); intros [= <- <-];
    [destruct (io_torn env _META_PATH)|];
    (eexists; split; [destruct w; reflexivity|]);
    unfold writes, scans; simpl;
    rewrite ?List.filter_app, ?scan_log_filter by done; simpl;
    (split; [done|]); (split; [by exists []|done]).
Qed.

Lemma write_local_bundles_writes env force w r w' :
  write_local_bundles Path env force w = (r, w') →
  ∃ evs,
    trace w' = (trace w ++ evs)%list
    ∧ writes evs `prefix_of` write_plan Path env w
    ∧ (∀ p, r = Ok p → writes evs = [] ∨ writes evs = write_plan Path env w)
    ∧ (writes evs ≠ [] → scans evs = 1%nat).
Proof.
  destruct force.
  - rewrite write_local_bundles_force. intros Hrun.
    destruct (regenerate_writes _ _ _ _ Hrun) as (evs & Htr & Hs & Hpre & Hall).
    exists evs. split; [done|]. split; [done|]. split; [eauto|by intros _].
  - rewrite write_local_bundles_check.
    destruct (is_stale_frame Path env (bndl_roots env) w) as (evs0 & Hw & Hs0 & Hw0).
    destruct (_is_stale Path env (bndl_roots env) w) as [[[]|e] w0];
      simpl in Hw; subst w0.
    + intros Hrun.
      destruct (regenerate_writes _ _ _ _ Hrun) as (evs & Htr & Hs & Hpre & Hall).
      exists (evs0 ++ evs)%list. rewrite writes_app, scans_app, Hw0, Hs0. simpl.
      split; [rewrite Htr; simpl; by rewrite app_assoc|].
      split; [done|]. split; [eauto|by intros _].
    + intros [= <- <-]. exists (evs0 ++ [EvLog UpToDate])%list.
      rewrite writes_app, Hw0. simpl.
      split; [by rewrite app_assoc|]. split; [by apply prefix_nil|].
      split; [by left|done].
    + intros [= <- <-]. exists evs0. rewrite Hw0.
      split; [done|]. split; [by apply prefix_nil|]. split; [by left|done].
Qed.

(** X9.  In every run of [write_local_bundles] the write calls are a prefix
    of: create the cache directory, write the Result File, write the
    Metadata File with the fingerprint scanned in between.  A run that
    returns made none of them or all three, and a run that made any has
    scanned exactly once. *)
Theorem writes_follow_plan env force w :
  ∃ evs,
    trace (write_local_bundles Path env force w).2 = (trace w ++ evs)%list
    ∧ writes evs `prefix_of` write_plan Path env w
    ∧ (∀ p, (write_local_bundles Path env force w).1 = Ok p →
            writes evs = [] ∨ writes evs = write_plan Path env w)
    ∧ (writes evs ≠ [] → scans evs = 1%nat).
Proof.
  destruct (write_local_bundles Path env force w) as [r w'] eqn:Hrun.
  by apply (write_local_bundles_writes env force w r w').
Qed.

(** X10.  The staleness check only asks whether the Result File exists: on
    a fresh cache, whatever replaces the content of the Result File, even
    something that cannot be read, [write_local_bundles] still returns its
    path without scanning or writing, and the calls it makes on the cache
    files are the two existence tests and the read of the Metadata File. *)
Theorem damaged_result_file_is_kept env w c' :
  (_is_stale Path env (bndl_roots env) w).1 = Ok false →
  ∃ evs,
    write_local_bundles Path env false (set_file LOCAL_BUNDLES_PATH c' w)
    = (Ok LOCAL_BUNDLES_PATH, record evs (set_file LOCAL_BUNDLES_PATH c' w))
    ∧ writes evs = [] ∧ scans evs = 0%nat
    ∧ checks evs = [EvExists LOCAL_BUNDLES_PATH; EvExists _META_PATH;
                    EvReadText _META_PATH].
Proof.
  rewrite write_local_bundles_check, !is_stale_run.
  destruct w as [t b m xe tr]. cbn [set_file local_bundles meta_file tree exists_error].
  destruct b; [|by destruct (xe LOCAL_BUNDLES_PATH)].
  destruct m as [[e|meta]|]; [done| |by destruct (xe _META_PATH)].
  destruct meta; try done.
  destruct (ne_str _ _); [done|].
  destruct (_scan_mtimes Path t (split_roots env (bndl_roots env))).1; [|done].
  destruct (mtimes_eq _ _); [|done].
  intros _. eexists. rewrite record_record. split; [reflexivity|].
  repeat split; count_events.
Qed.

End CallMore.

(** ** Parsing the roots string *)

Lemma split_not_nil sep s : PyStr.split sep s ≠ [].
Proof.
  destruct s as [|c s]; simpl; [done|].
  destruct (Ascii.eqb c sep); [done|]. by destruct (PyStr.split sep s).
Qed.

Lemma split_app sep s1 s2 :
  PyStr.split sep (String.append s1 (String sep s2))
  = (PyStr.split sep s1 ++ PyStr.split sep s2)%list.
Proof.
  induction s1 as [|c s1 IH]; simpl.
  - by rewrite Ascii.eqb_refl.
  - destruct (Ascii.eqb c sep); [by rewrite IH|].
    rewrite IH. pose proof (split_not_nil sep s1).
    by destruct (PyStr.split sep s1).
Qed.

Lemma split_lacks sep s : lacks sep s = true → PyStr.split sep s = [s].
Proof.
  induction s as [|c s IH]; simpl; [done|].
  intros [Hc Hs]%andb_true_iff. apply negb_true_iff in Hc.
  by rewrite Hc, (IH Hs).
Qed.

Lemma split_elem_lacks sep s x : x ∈ PyStr.split sep s → lacks sep x = true.
Proof.
  revert x. induction s as [|c s IH]; simpl; intros x.
  - by intros ->%list_elem_of_singleton.
  - destruct (Ascii.eqb c sep) eqn:Hc.
    + intros [->|?]%elem_of_cons; auto.
    + pose proof (split_not_nil sep s).
      destruct (PyStr.split sep s) as [|h t]; [done|].
      intros [->|?]%elem_of_cons.
      * simpl. rewrite Hc. simpl. apply IH, elem_of_cons. by left.
      * apply IH, elem_of_cons. by right.
Qed.

Lemma lstrip_lacks c s : lacks c s = true → lacks c (PyStr.lstrip s) = true.
Proof.
  induction s as [|a s IH]; simpl; [done|].
  intros H. destruct (PyStr.isspace a); [|done].
  apply andb_true_iff in H as [_ H]. auto.
Qed.

Lemma rstrip_lacks c s : lacks c s = true → lacks c (PyStr.rstrip s) = true.
Proof.
  induction s as [|a s IH]; simpl; [done|].
  intros [Ha Hs]%andb_true_iff. specialize (IH Hs).
  destruct (PyStr.rstrip s).
  - destruct (PyStr.isspace a); simpl; [done|by rewrite Ha].
  - simpl in *. by rewrite Ha, IH.
Qed.

Lemma rstrip_idemp s : PyStr.rstrip (PyStr.rstrip s) = PyStr.rstrip s.
Proof.
  induction s as [|a s IH]; simpl; [done|].
  destruct (PyStr.rstrip s) as [|b r] eqn:E.
  - destruct (PyStr.isspace a) eqn:Ha; simpl; [done|by rewrite Ha].
  - simpl in IH. simpl. by rewrite IH.
Qed.

Lemma lstrip_head_clean s : head_clean (PyStr.lstrip s) = true.
Proof.
  induction s as [|a s IH]; simpl; [done|].
  destruct (PyStr.isspace a) eqn:Ha; [done|]. simpl. by rewrite Ha.
Qed.

Lemma lstrip_id s : head_clean s = true → PyStr.lstrip s = s.
Proof.
  destruct s as [|a s]; simpl; [done|]. by intros ->%negb_true_iff.
Qed.

Lemma rstrip_head_clean s : head_clean s = true → head_clean (PyStr.rstrip s) = true.
Proof.
  destruct s as [|a s]; simpl; [done|]. intros Ha.
  destruct (PyStr.rstrip s); [|done].
  apply negb_true_iff in Ha. rewrite Ha. simpl. by rewrite Ha.
Qed.

Lemma strip_idemp s : PyStr.strip (PyStr.strip s) = PyStr.strip s.
Proof.
  unfold PyStr.strip.
  rewrite (lstrip_id (PyStr.rstrip _)); [apply rstrip_idemp|].
  apply rstrip_head_clean, lstrip_head_clean.
Qed.

Lemma truthy_ne s : PyStr.truthy s = true ↔ s ≠ "".
Proof. by destruct s. Qed.

Section RootsString.

Variable env : Env.

Lemma split_roots_elem roots_str x :
  x ∈ split_roots env roots_str
  ↔ ∃ y, y ∈ PyStr.split (sep env) roots_str ∧ x = PyStr.strip y ∧ x ≠ "".
Proof.
  unfold split_roots. rewrite list_elem_of_In, in_map_iff. split.
  - intros (y & <- & [Hy Ht]%filter_In). exists y.
    split; [by apply list_elem_of_In|]. split; [done|by apply truthy_ne].
  - intros (y & Hy & -> & Ht). exists y. split; [done|].
    apply filter_In. split; [by apply list_elem_of_In|by apply truthy_ne].
Qed.

(** X11.  Every root parsed out of a roots string is clean: not empty,
    free of the separator, and without whitespace at either end. *)
Theorem split_roots_clean roots_str :
  Forall (clean_root env) (split_roots env roots_str).
Proof.
  apply Forall_forall. intros x (y & Hy & -> & Hne)%split_roots_elem.
  split; [done|]. split; [apply strip_idemp|].
  apply rstrip_lacks, lstrip_lacks. by eapply split_elem_lacks.
Qed.

Lemma split_roots_app s1 s2 :
  split_roots env (String.append s1 (String (sep env) s2))
  = (split_roots env s1 ++ split_roots env s2)%list.
Proof.
  unfold split_roots. by rewrite split_app, List.filter_app, List.map_app.
Qed.

Lemma split_roots_one x : clean_root env x → split_roots env x = [x].
Proof.
  intros (Hne & Hstrip & Hsep). unfold split_roots.
  rewrite (split_lacks _ _ Hsep). simpl. rewrite Hstrip.
  rewrite (proj2 (truthy_ne x) Hne). simpl. by rewrite Hstrip.
Qed.

(** X12.  A roots string made by joining clean roots with the separator
    parses back to those roots, in order and with repetitions. *)
Theorem split_roots_join (roots : list string) :
  Forall (clean_root env) roots →
  split_roots env (join (String (sep env) "") roots) = roots.
Proof.
  induction roots as [|x [|y roots] IH]; intros Hall.
  - reflexivity.
  - apply (split_roots_one x). by inversion Hall.
  - inversion Hall as [|? ? Hx Hrest]; subst.
    change (join (String (sep env) "") (x :: y :: roots))
      with (String.append x (String (sep env) (join (String (sep env) "") (y :: roots)))).
    by rewrite split_roots_app, (split_roots_one x Hx), (IH Hrest).
Qed.

(** X13.  Parsing goes segment by segment: a separator between two strings
    puts their roots one after the other, a segment of whitespace only (or
    empty) gives no root, and any other segment gives itself stripped. *)
Theorem split_roots_segments :
  (∀ s1 s2,
     split_roots env (String.append s1 (String (sep env) s2))
     = (split_roots env s1 ++ split_roots env s2)%list)
  ∧ (∀ s, lacks (sep env) s = true →
          split_roots env s
          = if PyStr.truthy (PyStr.strip s) then [PyStr.strip s] else []).
Proof.
  split; [apply split_roots_app|].
  intros s Hs. unfold split_roots. rewrite (split_lacks _ _ Hs). simpl.
  by destruct (PyStr.truthy (PyStr.strip s)).
Qed.

End RootsString.

(** ** Comparing with a stored fingerprint *)

(** X14.  The stored value matches a fingerprint exactly when it is an
    object with the same keys as the fingerprint whose values are equal, as
    numbers, to the fingerprint's. *)
Theorem mtimes_eq_spec (m : Mtimes) (v : json) :
  mtimes_eq m v = true
  ↔ ∃ d, v = JObj d
         ∧ dom m = dom d
         ∧ ∀ k t, m !! k = Some t → ∃ x, d !! k = Some x ∧ num_eq t x = true.
Proof.
  split.
  - destruct v as [| | | | |d]; try done. simpl.
    rewrite andb_true_iff, Nat.eqb_eq, forallb_forall. intros [Hsize Hall].
    assert (∀ k t, m !! k = Some t → ∃ x, d !! k = Some x ∧ num_eq t x = true)
      as Hvals.
    { intros k t Hk.
      assert (In (k, t) (map_to_list m)) as Hin
        by by apply list_elem_of_In, elem_of_map_to_list.
      specialize (Hall (k, t) Hin). simpl in Hall.
      destruct (d !! k) as [x|]; [|done]. by exists x. }
    exists d. split; [done|]. split; [|done].
    apply set_subseteq_size_eq.
    + intros k [t Hk]%elem_of_dom. apply elem_of_dom.
      destruct (Hvals k t Hk) as (x & -> & _). by eexists.
    + rewrite !size_dom. lia.
  - intros (d & -> & Hdom & Hvals). simpl.
    rewrite andb_true_iff, Nat.eqb_eq, forallb_forall. split.
    + by rewrite <- !size_dom, Hdom.
    + intros [k t] Hk%list_elem_of_In%elem_of_map_to_list. simpl.
      by destruct (Hvals k t Hk) as (x & -> & ?).
Qed.


(** ** The launcher *)

Section LauncherFacts.

Variable Path : string → string.
Variable joinpath : string → string → string.
Variable expanduser : string → string.
Variable import_environ : gmap string string.
Variable env : Env.
Variable host : Host.

Lemma first_existing_some candidates c :
  first_existing host candidates = inr (Some c) →
  c ∈ candidates ∧ path_exists host c = inr true.
Proof.
  induction candidates as [|x xs IH]; simpl; [done|].
  destruct (path_exists host x) as [e|[]] eqn:Hx; [done| |].
  - intros [= <-]. split; [apply elem_of_cons; by left|done].
  - intros H. destruct (IH H). split; [apply elem_of_cons; by right|done].
Qed.

Lemma first_existing_none candidates :
  first_existing host candidates = inr None →
  ∀ c, c ∈ candidates → path_exists host c = inr false.
Proof.
  induction candidates as [|x xs IH]; simpl; [by intros _ c ?%elem_of_nil|].
  destruct (path_exists host x) as [e|[]] eqn:Hx; [done|done|].
  intros H c [->|Hc]%elem_of_cons; auto.
Qed.

Lemma first_existing_raises candidates e :
  first_existing host candidates = inl e →
  ∃ c, c ∈ candidates ∧ path_exists host c = inl e.
Proof.
  induction candidates as [|x xs IH]; simpl; [done|].
  destruct (path_exists host x) as [e'|[]] eqn:Hx; [|done|].
  - intros [= <-]. exists x. split; [apply elem_of_cons; by left|done].
  - intros (c & Hc & He)%IH. exists c. split; [apply elem_of_cons; by right|done].
Qed.

Lemma found_truthy_some found f :
  found_truthy found = Some f → found = Some f ∧ f ≠ "".
Proof.
  destruct found as [g|]; simpl; [|done].
  destruct (PyStr.truthy g) eqn:Hg; [|done].
  intros [= <-]. split; [done|by apply truthy_ne].
Qed.

(** X15.  A path [resolve_code_exe] returns is the stripped, non-empty
    [VSCODE_EXE] and exists, or is what [shutil.which] found, or is a
    fallback location that exists.  It raises its own [FileNotFoundError]
    only when [VSCODE_EXE] is empty or does not exist, [code] is not on
    [PATH] and no fallback location exists.  The only other exception is the
    [OSError] of [exists] on a [VSCODE_EXE] or a fallback location that
    cannot be examined. *)
Theorem resolve_code_exe_contract environ :
  match resolve_code_exe Path joinpath import_environ host environ with
  | Return p =>
      (p = explicit_exe environ ∧ p ≠ "" ∧ path_exists host (Path p) = inr true)
      ∨ (which host "code" = Some p ∧ p ≠ "")
      ∨ (p ∈ _FALLBACK_CODE_PATHS Path joinpath import_environ
         ∧ path_exists host p = inr true)
  | Throw (CodeNotFound msg) =>
      msg = not_found_message Path joinpath import_environ
      ∧ (explicit_exe environ = ""
         ∨ path_exists host (Path (explicit_exe environ)) = inr false)
      ∧ found_truthy (which host "code") = None
      ∧ ∀ c, c ∈ _FALLBACK_CODE_PATHS Path joinpath import_environ →
             path_exists host c = inr false
  | Throw (Uncaught e) =>
      ∃ oe, e = OSErr oe
        ∧ ((explicit_exe environ ≠ ""
            ∧ path_exists host (Path (explicit_exe environ)) = inl oe)
           ∨ (found_truthy (which host "code") = None
              ∧ ∃ c, c ∈ _FALLBACK_CODE_PATHS Path joinpath import_environ
                     ∧ path_exists host c = inl oe))
  | Throw _ => False
  end.
Proof.
  unfold resolve_code_exe, explicit_exists.
  set (fallbacks := _FALLBACK_CODE_PATHS Path joinpath import_environ).
  destruct (PyStr.truthy (explicit_exe environ)) eqn:Ht.
  - apply truthy_ne in Ht.
    destruct (path_exists host (Path (explicit_exe environ))) as [oe|[]] eqn:He.
    + exists oe. split; [done|]. by left.
    + left. by repeat split.
    + destruct (found_truthy (which host "code")) as [f|] eqn:Hf.
      { right. left. by apply found_truthy_some. }
      destruct (first_existing host fallbacks) as [oe|[c|]] eqn:Hc.
      * exists oe. split; [done|]. right. split; [done|].
        by apply first_existing_raises.
      * right. right. by apply first_existing_some.
      * split; [done|]. split; [by right|]. split; [done|].
        by apply first_existing_none.
  - assert (explicit_exe environ = "") as Hempty
      by by destruct (explicit_exe environ).
    destruct (found_truthy (which host "code")) as [f|] eqn:Hf.
    { right. left. by apply found_truthy_some. }
    destruct (first_existing host fallbacks) as [oe|[c|]] eqn:Hc.
    + exists oe. split; [done|]. right. split; [done|].
      by apply first_existing_raises.
    + right. right. by apply first_existing_some.
    + split; [done|]. split; [by left|]. split; [done|].
      by apply first_existing_none.
Qed.

(** X16.  A [VSCODE_EXE] that is empty after stripping, or for which
    [exists] answers [False], is ignored without an error: the answer is
    the one given with the variable unset.  One that exists wins over
    [PATH] and the fallback locations, and one that cannot be examined
    makes [resolve_code_exe] raise the [OSError] of [exists]. *)
Theorem resolve_code_exe_explicit environ :
  resolve_code_exe Path joinpath import_environ host environ
  = match explicit_exists Path host (explicit_exe environ) with
    | inl e => Throw (Uncaught (OSErr e))
    | inr true => Return (explicit_exe environ)
    | inr false =>
        resolve_code_exe Path joinpath import_environ host
          (delete "VSCODE_EXE" environ)
    end.
Proof.
  unfold resolve_code_exe at 1.
  destruct (explicit_exists Path host (explicit_exe environ)) as [e|[]];
    [done|done|].
  unfold resolve_code_exe, explicit_exe. by rewrite lookup_delete_eq.
Qed.

Lemma bndl_roots_at_insert environ v :
  bndl_roots (at_environ env (<["ENVOY_BUNDLES_CONFIG" := v]> environ))
  = bndl_roots (at_environ env environ).
Proof. unfold bndl_roots. simpl. by rewrite lookup_insert_ne. Qed.

(** X17.  When [launch_vscode] returns a process: VS Code was resolved, the
    command line is the executable followed by the extra arguments as
    given, the child's environment is [os.environ] with
    [ENVOY_BUNDLES_CONFIG] set to the Result File path and nothing else
    changed, and both cache files exist.  When it raises, either nothing
    was spawned and [os.environ] is as before, or the spawn itself failed.
    In every case the file system is the one the call of
    [write_local_bundles] left. *)
Theorem launch_vscode_contract extra_args s :
  let env_now := at_environ env (os_environ s) in
  match launch_vscode Path joinpath expanduser import_environ env host extra_args s with
  | (Return proc, s') =>
      ∃ code_exe,
        resolve_code_exe Path joinpath import_environ host (os_environ s)
        = Return code_exe
        ∧ popen_args proc = code_exe :: extra_args
        ∧ popen_environ proc
          = <["ENVOY_BUNDLES_CONFIG" :=
                cache_path_str Path joinpath expanduser import_environ
                  LOCAL_BUNDLES_PATH]> (os_environ s)
        ∧ os_environ s' = popen_environ proc
        ∧ launches s'
          = (launches s ++ [LvLog (SpawningVSCode code_exe extra_args);
                            LvSpawn (popen_args proc) (popen_environ proc)])%list
        ∧ cache s' = (write_local_bundles Path env_now false (cache s)).2
        ∧ is_Some (local_bundles (cache s'))
        ∧ is_Some (meta_file (cache s'))
  | (Throw e, s') =>
      cache s' = (write_local_bundles Path env_now false (cache s)).2
      ∧ ((launches s' = launches s ∧ os_environ s' = os_environ s)
         ∨ ∃ argv x, spawn_fault host argv = Some x ∧ e = Uncaught x)
  end.
Proof.
  intros env_now. unfold launch_vscode. fold env_now.
  destruct (write_local_bundles Path env_now false (cache s)) as [[p|e] w'] eqn:Hrun;
    [|simpl; auto].
  destruct (returned_call _ _ _ _ _ _ Hrun) as (-> & Hb & Hm).
  destruct (resolve_code_exe _ _ _ _ _) as [code_exe|e] eqn:Hres; [|simpl; auto].
  cbv zeta.
  destruct (spawn_fault host (code_exe :: extra_args)) as [x|] eqn:Hsp; simpl.
  - split; [done|]. right. by exists (code_exe :: extra_args), x.
  - exists code_exe. repeat split; done.
Qed.

(** X18.  A second launch right after one that returned, on the file
    system the first one left: when writing the Metadata File did not
    change what the fingerprint records, it finds the cache fresh although
    [os.environ] now holds [ENVOY_BUNDLES_CONFIG], and neither scans nor
    writes. *)
Theorem second_launch_uses_cache extra_args extra_args' s proc s1 :
  launch_vscode Path joinpath expanduser import_environ env host extra_args s
  = (Return proc, s1) →
  metadata_write_untracked Path (at_environ env (os_environ s)) (cache s) →
  ∃ evs,
    cache (launch_vscode Path joinpath expanduser import_environ env host
             extra_args' s1).2
    = record evs (cache s1)
    ∧ writes evs = [] ∧ scans evs = 0%nat.
Proof.
  unfold launch_vscode at 1.
  destruct (write_local_bundles Path (at_environ env (os_environ s)) false (cache s))
    as [[p|e] w'] eqn:Hrun; [|done].
  intros Hlaunch Hquiet.
  destruct (returned_cache_is_fresh _ _ _ _ _ Hrun Hquiet) as (-> & Hfresh & _).
  destruct (resolve_code_exe _ _ _ _ _) as [code_exe|e]; [|done]. cbv zeta in Hlaunch.
  destruct (spawn_fault host (code_exe :: extra_args)); [done|].
  injection Hlaunch as _ <-. cbn [cache os_environ].
  rewrite <- (bndl_roots_at_insert (os_environ s)
                (cache_path_str Path joinpath expanduser import_environ
                   LOCAL_BUNDLES_PATH)) in Hfresh.
  rewrite <- (is_stale_env Path (at_environ env (os_environ s))
                (at_environ env
                   (<["ENVOY_BUNDLES_CONFIG" :=
                        cache_path_str Path joinpath expanduser import_environ
                          LOCAL_BUNDLES_PATH]> (os_environ s))))
    in Hfresh by done.
  destruct (up_to_date_call _ _ _ Hfresh) as (evs & Hcall & Hw & Hs).
  exists evs. split; [|done].
  unfold launch_vscode. cbn [cache os_environ].
  unfold cache_path_str in Hcall. rewrite Hcall.
  destruct (resolve_code_exe _ _ _ _ _); cbv zeta; [|done].
  by destruct (spawn_fault host _).
Qed.

(** X19.  [main] never gets as far as the launcher: [_wrapper] binds no
    name [launch], so the lookup raises [AttributeError], which the
    [except FileNotFoundError] clause does not catch; the file system, the
    environment and the list of launches are untouched, whatever the
    command line. *)
Theorem main_raises_attribute_error sys_argv s :
  main Path joinpath expanduser import_environ env host sys_argv s
  = (Throw (Uncaught AttributeError), s).
Proof. reflexivity. Qed.

End LauncherFacts.

(** ** Failures and the staleness check *)

(** X22.  A regeneration in which creating the cache directory or writing
    either file would fail does not return a path: an [OSError] reaches the
    caller, after the scan has run once.  It is the one of the first failing
    call, or, when that call is the write of the Metadata File, the one of a
    configured root that the fingerprint scan before it could not examine. *)
Theorem write_failure_reaches_caller Path env force w op oe :
  io_fault env op = Some oe →
  force = true ∨ (_is_stale Path env (bndl_roots env) w).1 = Ok true →
  ∃ oe' w' evs,
    write_local_bundles Path env force w = (Raise (OSErr oe'), w')
    ∧ ((∃ op', io_fault env op' = Some oe')
       ∨ examine_error Path (tree_at_scan env w)
           (split_roots env (bndl_roots env)) = Some oe')
    ∧ trace w' = (trace w ++ evs)%list
    ∧ scans evs = 1%nat.
Proof.
  intros Hop Hregen.
  assert (∀ w0, ∃ oe' w' evs,
            regenerate Path env (bndl_roots env) w0 = (Raise (OSErr oe'), w')
            ∧ ((∃ op', io_fault env op' = Some oe')
               ∨ examine_error Path (tree_at_scan env w0)
                   (split_roots env (bndl_roots env)) = Some oe')
            ∧ trace w' = (trace w0 ++ evs)%list ∧ scans evs = 1%nat) as Hfail.
  { intros w0.
    destruct (regenerate Path env (bndl_roots env) w0) as [r w'] eqn:Hrun.
    destruct (regenerate_scans_once _ _ _ _ _ _ Hrun) as (evs & Htr & Hs & _).
    rewrite regenerate_run in Hrun. cbv zeta in Hrun.
    destruct (io_fault env OpMkdir) as [e1|] eqn:E1.
    { injection Hrun as <- <-. exists e1. eauto 10. }
    destruct (io_fault env (OpWrite LOCAL_BUNDLES_PATH)) as [e2|] eqn:E2.
    { injection Hrun as <- <-. exists e2. eauto 10. }
    destruct (_scan_mtimes Path (tree_at_scan env w0)
                (split_roots env (bndl_roots env))).1 as [m|e] eqn:Hscan.
    - destruct (io_fault env (OpWrite _META_PATH)) as [e3|] eqn:E3.
      + injection Hrun as <- <-. exists e3. eauto 10.
      + destruct op as [|[]]; congruence.
    - injection Hrun as <- <-.
      apply scan_raises in Hscan as (oe' & Hoe & ->). exists oe'. eauto 10. }
  destruct force.
  - rewrite write_local_bundles_force. apply Hfail.
  - destruct Hregen as [|Hstale]; [done|].
    rewrite write_local_bundles_check.
    destruct (is_stale_frame Path env (bndl_roots env) w) as (evs0 & Hw & Hs0 & _).
    destruct (_is_stale Path env (bndl_roots env) w) as [[[]|] w0];
      simpl in Hstale, Hw; try done. subst w0.
    destruct (Hfail (record evs0 w)) as (oe' & w' & evs & Hrun & Hwhy & Htr & Hs).
    exists oe', w', (evs0 ++ evs)%list. rewrite Hrun, scans_app, Hs0, Hs.
    split; [done|]. split; [done|]. split; [|done].
    rewrite Htr. simpl. by rewrite app_assoc.
Qed.

(** X23.  The staleness check only looks: whatever it answers, and also
    when it raises, the directory tree and both cache files are left as
    they were, and it makes no write call and no scan. *)
Theorem is_stale_only_looks Path env roots_str w :
  tree (_is_stale Path env roots_str w).2 = tree w
  ∧ local_bundles (_is_stale Path env roots_str w).2 = local_bundles w
  ∧ meta_file (_is_stale Path env roots_str w).2 = meta_file w
  ∧ ∃ evs,
      trace (_is_stale Path env roots_str w).2 = (trace w ++ evs)%list
      ∧ writes evs = [] ∧ scans evs = 0%nat.
Proof.
  destruct (is_stale_frame Path env roots_str w) as (evs & -> & Hs & Hw).
  split; [done|]. split; [done|]. split; [done|]. by exists evs.
Qed.

(** ** Concrete runs of the further properties *)

Lemma fingerprint_holds_only_directories_witness :
  is_dir ex_tree_race "/r" = inr true
  ∧ stat_mtime ex_tree_race "/r" = inr 5
  ∧ ∃ r, r ∈ ["/r"] ∧ is_dir ex_tree_race (plain_path r) = inr true
         ∧ ("/r" = plain_path r ∨ "/r" ∈ children_of ex_tree_race (plain_path r)).
Proof.
  apply (fingerprint_holds_only_directories plain_path ex_tree_race ["/r"]
           {[ "/r" := 5 ]} "/r" 5); vm_compute; reflexivity.
Defined.

Lemma scan_mtimes_absorbs_failures_witness :
  ∃ m,
    _scan_mtimes plain_path ex_tree_link ["/r"]
    = (Ok m, failures plain_path ex_tree_link ["/r"])
    ∧ (∀ k t, m !! k = Some t
              ↔ ∃ r, r ∈ ["/r"] ∧ is_dir ex_tree_link (plain_path r) = inr true
                     ∧ (k, t) ∈ root_entries ex_tree_link (plain_path r))
    ∧ (∀ r t, r ∈ ["/r"] → is_dir ex_tree_link (plain_path r) = inr true →
              stat_mtime ex_tree_link (plain_path r) = inr t →
              m !! plain_path r = Some t).
Proof.
  apply (scan_mtimes_absorbs_failures plain_path ex_tree_link ["/r"]).
  intros r ->%list_elem_of_singleton. by exists true.
Defined.

Lemma regenerated_cache_fresh_iff_witness :
  ∃ m,
    (_scan_mtimes plain_path (tree_at_scan ex_env ex_no_cache)
       (split_roots ex_env (bndl_roots ex_env))).1 = Ok m
    ∧ meta_file ex_cached = Some (Json (meta_doc (bndl_roots ex_env) m))
    ∧ ∀ t roots_str',
        (_is_stale plain_path ex_env_bare roots_str' (at_tree t ex_cached)).1
        = if String.eqb (bndl_roots ex_env) roots_str' then
            match (_scan_mtimes plain_path t (split_roots ex_env_bare roots_str')).1 with
            | Ok m' => Ok (bool_decide (m' ≠ m))
            | Raise e => Raise e
            end
          else Ok true.
Proof.
  apply (regenerated_cache_fresh_iff plain_path ex_env ex_env_bare false
           ex_no_cache LOCAL_BUNDLES_PATH ex_cached).
  - vm_compute. reflexivity.
  - right. vm_compute. reflexivity.
Defined.

Lemma changed_directory_makes_stale_witness :
  (_is_stale plain_path ex_env (bndl_roots ex_env) (at_tree ex_tree_bare ex_cached)).1
  = match (_scan_mtimes plain_path ex_tree_bare
             (split_roots ex_env (bndl_roots ex_env))).1 with
    | Ok _ => Ok true
    | Raise e => Raise e
    end.
Proof.
  apply (changed_directory_makes_stale plain_path ex_env false
           ex_no_cache LOCAL_BUNDLES_PATH ex_cached
           (<["/r" := 5]> {[ "/r/a" := 7 ]}) "/r/a" 7 ex_tree_bare).
  - vm_compute. reflexivity.
  - right. vm_compute. reflexivity.
  - vm_compute. reflexivity.
  - vm_compute. reflexivity.
  - left. discriminate.
Defined.

Lemma new_subdirectory_makes_stale_witness :
  (_is_stale plain_path ex_env_bare (bndl_roots ex_env_bare)
     (at_tree ex_tree
        (write_local_bundles plain_path ex_env_bare true
           (at_tree ex_tree_bare ex_no_cache)).2)).1
  = match (_scan_mtimes plain_path ex_tree
             (split_roots ex_env_bare (bndl_roots ex_env_bare))).1 with
    | Ok _ => Ok true
    | Raise e => Raise e
    end.
Proof.
  apply (new_subdirectory_makes_stale plain_path ex_env_bare true
           (at_tree ex_tree_bare ex_no_cache) LOCAL_BUNDLES_PATH _
           {[ "/r" := 4 ]} "/r" "/r/a" ex_tree).
  - vm_compute. reflexivity.
  - by left.
  - vm_compute. reflexivity.
  - vm_compute. reflexivity.
  - vm_compute. apply elem_of_cons. by left.
  - reflexivity.
  - reflexivity.
  - apply elem_of_cons. by left.
  - reflexivity.
Defined.

Lemma no_roots_never_stale_again_witness :
  (_is_stale plain_path (at_environ ex_env (environ ex_env_blank))
     (bndl_roots ex_env_blank)
     (at_tree ex_tree_locked
        (write_local_bundles plain_path ex_env_blank false ex_no_cache).2)).1
  = Ok false.
Proof.
  apply (no_roots_never_stale_again plain_path ex_env_blank
           (at_environ ex_env (environ ex_env_blank)) false
           ex_no_cache LOCAL_BUNDLES_PATH _ ex_tree_locked).
  - vm_compute. reflexivity.
  - right. vm_compute. reflexivity.
  - reflexivity.
  - reflexivity.
Defined.

Lemma returned_call_leaves_fresh_pair_witness :
  LOCAL_BUNDLES_PATH = LOCAL_BUNDLES_PATH
  ∧ is_Some (local_bundles ex_cached)
  ∧ is_Some (meta_file ex_cached)
  ∧ (metadata_write_untracked plain_path ex_env ex_no_cache →
     (_is_stale plain_path ex_env (bndl_roots ex_env) ex_cached).1 = Ok false).
Proof.
  apply (returned_call_leaves_fresh_pair plain_path ex_env false ex_no_cache
           LOCAL_BUNDLES_PATH ex_cached).
  vm_compute. reflexivity.
Defined.

Lemma damaged_result_file_is_kept_witness :
  ∃ evs,
    write_local_bundles plain_path ex_env false
      (set_file LOCAL_BUNDLES_PATH (Unreadable JSONDecodeError) ex_cached)
    = (Ok LOCAL_BUNDLES_PATH,
       record evs (set_file LOCAL_BUNDLES_PATH (Unreadable JSONDecodeError) ex_cached))
    ∧ writes evs = [] ∧ scans evs = 0%nat
    ∧ checks evs = [EvExists LOCAL_BUNDLES_PATH; EvExists _META_PATH;
                    EvReadText _META_PATH].
Proof.
  apply (damaged_result_file_is_kept plain_path ex_env ex_cached
           (Unreadable JSONDecodeError)).
  vm_compute. reflexivity.
Defined.

Lemma split_roots_join_witness :
  split_roots ex_env "/r:/s a:/r" = ["/r"; "/s a"; "/r"].
Proof.
  apply (split_roots_join ex_env ["/r"; "/s a"; "/r"]).
  repeat constructor; discriminate.
Defined.

Lemma second_launch_uses_cache_witness :
  ∃ evs,
    cache (launch_vscode plain_path ex_joinpath plain_path ∅ ex_env ex_host
             ["--new-window"] ex_launched).2
    = record evs (cache ex_launched)
    ∧ writes evs = [] ∧ scans evs = 0%nat.
Proof.
  apply (second_launch_uses_cache plain_path ex_joinpath plain_path ∅ ex_env
           ex_host [] ["--new-window"] ex_session ex_proc ex_launched).
  - vm_compute. reflexivity.
  - vm_compute. reflexivity.
Defined.

Lemma write_failure_reaches_caller_witness :
  ∃ oe' w' evs,
    write_local_bundles plain_path ex_env_readonly true ex_cached
    = (Raise (OSErr oe'), w')
    ∧ ((∃ op', io_fault ex_env_readonly op' = Some oe')
       ∨ examine_error plain_path (tree_at_scan ex_env_readonly ex_cached)
           (split_roots ex_env_readonly (bndl_roots ex_env_readonly)) = Some oe')
    ∧ trace w' = (trace ex_cached ++ evs)%list
    ∧ scans evs = 1%nat.
Proof.
  apply (write_failure_reaches_caller plain_path ex_env_readonly true ex_cached
           (OpWrite _META_PATH) PermissionError); [reflexivity|by left].
Defined.

Lemma is_stale_decision_witness :
  (_is_stale plain_path ex_env "/r: /s" ex_cached).1
  = Ok (stale_by_spec plain_path ex_env "/r: /s" ex_cached).
Proof.
  apply (is_stale_decision plain_path ex_env "/r: /s" ex_cached).
  - intros c v _ Hmeta. vm_compute in Hmeta. injection Hmeta as <-. by eexists.
  - intros [] Hnone; vm_compute in Hnone; discriminate Hnone.
  - vm_compute. reflexivity.
Defined.
